(** * Procure-to-pay process mining: the data pipeline of [pm_streamlit_app.py]

    A shallow embedding of the script's table pipeline: [load_data] (the
    normaliser), the date / PO / invoice filters applied to [df_raw], the
    activity selection, the preparation of the OCEL table, and the calls made
    by [pm_display].

    pandas tables are modelled as an ordered list of column names plus a list
    of rows, a row being a finite map from column name to cell.  The text
    parsers of pandas ([pd.to_numeric] on one field, [pd.to_datetime] with
    [format='ISO8601'] on one date) are library code: they are taken as
    operations of the class [Pandas], and every result below holds for any
    instance.  In the same way the calls into streamlit and pm4py made by
    the script may raise; which of them do in a run is given by the class
    [Runtime]. *)

From stdpp Require Import base list strings pretty gmap.
From Stdlib Require Import QArith DecimalString.

#[local] Open Scope string_scope.
#[local] Open Scope list_scope.
#[local] Open Scope Z_scope.

(** ** Cells and tables *)

Module Frame.

(** A cell of a DataFrame.  [NaN] is the missing value; [VInt] a cell of
    an integer column (int64, or uint64 where [read_csv] infers it);
    [VTime] a datetime64 cell (an instant, in nanoseconds since the epoch,
    UTC); [VStr] any other present value, carried by the text [astype(str)]
    gives it. *)
Inductive Value :=
| NaN
| VStr (s : string)
| VInt (z : Z)
| VTime (t : Z).

#[global] Instance Value_eq_dec : EqDecision Value.
Proof. solve_decision. Defined.

#[global] Instance Value_inhabited : Inhabited Value := populate NaN.

Record DataFrame := mkDF {
  columns : list string;
  rows : list (gmap string Value)
}.

(** What [pd.to_numeric] yields for a field it can read: a float64 that is
    finite (a rational) or infinite, or an integer of an integer column. *)
Inductive Num :=
| Finite (q : Q)
| Infinite
| Integer (z : Z).

(** The pandas operations the script relies on and does not define. *)
Class Pandas := {
  (** [pd.to_numeric] on one text field; [None] when it cannot be parsed *)
  parse_number : string → option Num;
  (** [pd.to_datetime(_, format='ISO8601')] on one cell; [None] when the
      strict parse raises *)
  to_datetime : Value → option Z;
  (** the UTC offset written in a date, in seconds; [None] when the date
      has none *)
  utc_offset : Value → option Z;
  (** [Timestamp.year] *)
  year : Z → Z;
  (** [str] of a Timestamp *)
  isoformat : Z → string
}.

Section Ops.
Context `{Pandas}.

(** [Series.isna()] on one cell *)
Definition isna (v : Value) : bool :=
  match v with NaN => true | _ => false end.

(** [Series.astype(str)] on one cell: the missing value becomes the text
    ["nan"]. *)
Definition astype_str (v : Value) : string :=
  match v with
  | NaN => "nan"
  | VStr s => s
  | VInt z => pretty z
  | VTime t => isoformat t
  end.

(** [Series.isin(values)] on one cell *)
Definition isin {A} `{EqDecision A} (x : A) (values : list A) : bool :=
  bool_decide (x ∈ values).

(** [df[col]] on one row *)
Definition cell (r : gmap string Value) (col : string) : Value := r !!! col.

(** [df[mask]]: boolean-mask selection keeps the rows and their order *)
Definition select_rows (mask : gmap string Value → bool) (df : DataFrame) : DataFrame :=
  mkDF (columns df) (filter (λ r, mask r) (rows df)).

(** [df[col] = f(row)] *)
Definition assign (col : string) (f : gmap string Value → Value) (df : DataFrame) : DataFrame :=
  mkDF (if bool_decide (col ∈ columns df) then columns df else columns df ++ [col])
       ((λ r, <[col := f r]> r) <$> rows df).

(** The columns of [cols] that the table lacks *)
Definition missing (cols : list string) (df : DataFrame) : list string :=
  filter (λ c, c ∉ columns df) cols.

(** The columns of a row restricted to [cols] *)
Definition restrict (cols : list string) (r : gmap string Value) : gmap string Value :=
  filter (λ kv, kv.1 ∈ cols) r.

End Ops.
End Frame.
Export Frame.

(** ** Exceptions and script effects *)

Inductive exn :=
| KeyError (cols : list string)
| ValueError
| IntCastingNaNError
| TypeError
| OtherError (name : string).

Inductive result (A : Type) :=
| Ok (a : A)
| Raise (e : exn).
Arguments Ok {A} a.
Arguments Raise {A} e.

#[global] Instance result_ret : MRet result := λ A a, Ok a.

#[global] Instance result_bind : MBind result := λ A B k m,
  match m with
  | Ok a => k a
  | Raise e => Raise e
  end.

(** Apply a failing function to every row, as a column-wise pandas operation
    does: the first failing element raises. *)
Fixpoint traverse {A B} (f : A → result B) (l : list A) : result (list B) :=
  match l with
  | [] => Ok []
  | a :: l' => b ← f a; bs ← traverse f l'; Ok (b :: bs)
  end.

(** ** [load_data] *)

Module Loader.
Section Loader.
Context `{Pandas}.

Definition year_filter : list Z := [2020; 2021; 2022; 2023; 2024; 2025].

Definition cols_to_keep : list string :=
  ["po_number"; "pr_po_no"; "uid_number"; "activity"; "date"; "timestamp";
   "item"; "item_line"; "po_line"; "gr_number"; "gr_line"; "inv_line"; "wf_line"].

(** The canonical columns as the interface contract of the specification
    lists them *)
Definition contract_columns : list string :=
  ["po_number"; "pr_po_no"; "uid_number"; "activity"; "date"; "timestamp";
   "item"; "item_line"; "po_line"; "gr_line"; "inv_line"; "wf_line"].

(** [dataset.loc[:, ~dataset.columns.str.contains('^Unnamed')]] *)
Definition drop_unnamed (df : DataFrame) : DataFrame :=
  let keep := filter (λ c, negb (String.prefix "Unnamed" c)) (columns df) in
  mkDF keep (restrict keep <$> rows df).

Definition int64_min : Z := - 2 ^ 63.
Definition int64_max : Z := 2 ^ 63 - 1.

(** [pd.to_numeric(_, errors='coerce')] on one cell: [None] is NaN.  An
    integer stays an integer where int64 or uint64 can hold it, and is a
    float64 otherwise. *)
Definition to_numeric_coerce (v : Value) : option Num :=
  match v with
  | NaN => None
  | VStr s => parse_number s
  | VInt z =>
      Some (if bool_decide (int64_min ≤ z < 2 ^ 64) then Integer z
            else Finite (inject_Z z))
  | VTime t => Some (Integer t)
  end.

(** [.fillna(0)] *)
Definition fillna0 (n : option Num) : Num :=
  match n with
  | Some x => x
  | None => Finite 0
  end.

(** The int64 with the same low 64 bits: numpy's cast between integer
    types, which is how a uint64 column becomes int64 *)
Definition wrap64 (z : Z) : Z := (z + 2 ^ 63) `mod` 2 ^ 64 - 2 ^ 63.

(** [.astype(int)], the cast to int64.  A float64 is truncated toward
    zero; a finite one beyond the int64 range gives the least int64 (numpy
    on x86-64) and a non-finite one raises.  An integer is cast by
    [wrap64]. *)
Definition astype_int (n : Num) : result Z :=
  match n with
  | Finite q =>
      let z := Z.quot (Qnum q) (Z.pos (Qden q)) in
      Ok (if bool_decide (int64_min ≤ z ≤ int64_max) then z else int64_min)
  | Infinite => Raise IntCastingNaNError
  | Integer z => Ok (wrap64 z)
  end.

Definition coerce_po (v : Value) : result Z :=
  astype_int (fillna0 (to_numeric_coerce v)).

(** [df['po_number'] = pd.to_numeric(...).fillna(0).astype(int)], guarded by
    ['po_number' in df.columns] *)
Definition coerce_po_number (df : DataFrame) : result DataFrame :=
  if bool_decide ("po_number" ∈ columns df) then
    rs ← traverse (λ r, z ← coerce_po (cell r "po_number") ;
                         Ok (<["po_number" := VInt z]> r)) (rows df) ;
    Ok (mkDF (columns df) rs)
  else Ok df.

(** [df['date'].astype(str).str[0:4]] on one row *)
Definition date_str (r : gmap string Value) : string :=
  String.substring 0 4 (astype_str (cell r "date")).

Definition year_strs : list string := pretty <$> year_filter.

(** The mask of the year filter, on a row of the table read from the file *)
Definition in_year_filter (r : gmap string Value) : bool :=
  isin (date_str r) year_strs.

(** [df['date_str'] = ...; df = df[df['date_str'].isin(...)]] *)
Definition filter_years (df : DataFrame) : result DataFrame :=
  if bool_decide ("date" ∈ columns df) then
    Ok (select_rows (λ r, isin (cell r "date_str") (VStr <$> year_strs))
          (assign "date_str" (λ r, VStr (date_str r)) df))
  else Raise (KeyError ["date"]).

(** The dates of a column are in one zone: all without UTC offset, or all
    with the same one *)
Definition same_zone (offsets : list (option Z)) : bool :=
  match offsets with
  | [] => true
  | o :: os => forallb (λ o', bool_decide (o' = o)) os
  end.

(** The dates of the rows of a table are in one zone *)
Definition one_zone (rs : list (gmap string Value)) : Prop :=
  ∀ r r', r ∈ rs → r' ∈ rs → utc_offset (cell r "date") = utc_offset (cell r' "date").

(** [df['timestamp'] = pd.to_datetime(df['date'], format='ISO8601')]: one
    call on the column.  Every date has to parse, and without [utc=True]
    the dates have to be in one zone: pandas 3 raises [ValueError] on mixed
    offsets, and on dates with and without offset. *)
Definition parse_timestamps (df : DataFrame) : result DataFrame :=
  rs ← traverse (λ r, match to_datetime (cell r "date") with
                       | Some t => Ok (<["timestamp" := VTime t]> r)
                       | None => Raise ValueError
                       end) (rows df) ;
  if same_zone ((λ r, utc_offset (cell r "date")) <$> rows df) then
    Ok (mkDF (if bool_decide ("timestamp" ∈ columns df) then columns df
              else columns df ++ ["timestamp"]) rs)
  else Raise ValueError.

(** [df[cols_to_keep]] *)
Definition keep_columns (df : DataFrame) : result DataFrame :=
  match missing cols_to_keep df with
  | [] => Ok (mkDF cols_to_keep (restrict cols_to_keep <$> rows df))
  | m => Raise (KeyError m)
  end.

(** The body of [load_data] once the file has been read *)
Definition clean (dataset : DataFrame) : result DataFrame :=
  df ← coerce_po_number (drop_unnamed dataset) ;
  df ← filter_years df ;
  df ← parse_timestamps df ;
  keep_columns df.

Definition not_found_msg : string := "File 'df_event_sample1.csv' not found.".

(** [load_data()]: [file] is what [pd.read_csv] finds, [None] when it raises
    [FileNotFoundError], the one exception that is caught.  The result
    pairs the messages sent to [st.error] with the returned value ([None]
    is Python's [None]). *)
Definition load_data (file : option DataFrame) : list string * result (option DataFrame) :=
  match file with
  | None => ([not_found_msg], Ok None)
  | Some dataset => ([], df ← clean dataset ; Ok (Some df))
  end.

End Loader.
End Loader.


(** ** First occurrences

    [Series.unique()] and [DataFrame.drop_duplicates()] keep the first
    occurrence of every value, in order of appearance. *)

Fixpoint unique_from {A} `{EqDecision A} (seen l : list A) : list A :=
  match l with
  | [] => []
  | x :: l' =>
      if decide (x ∈ seen) then unique_from seen l'
      else x :: unique_from (x :: seen) l'
  end.

Definition unique {A} `{EqDecision A} (l : list A) : list A := unique_from [] l.

(** ** The filters applied to [df_raw] before the OCEL table is built *)

Module Filters.
Section Filters.
Context `{Pandas}.

(** [(df_raw.timestamp >= date_range[0]) & (df_raw.timestamp <= date_range[1])];
    a comparison with a missing instant is false *)
Definition in_date_range (date_range : Z * Z) (r : gmap string Value) : bool :=
  match cell r "timestamp" with
  | VTime t => bool_decide (date_range.1 ≤ t) && bool_decide (t ≤ date_range.2)
  | _ => false
  end.

(** [df_raw[df_raw.uid_number.astype(str).isin(inv_list)].po_number.unique().tolist()] *)
Definition po_of_invoice (df_raw : DataFrame) (inv_list : list string) : list Value :=
  unique ((λ r, cell r "po_number")
            <$> rows (select_rows (λ r, isin (astype_str (cell r "uid_number")) inv_list) df_raw)).

(** The mask [(uid_number.isna()) | (uid_number.astype(str).isin(inv_list))] *)
Definition invoice_mask (inv_list : list string) (r : gmap string Value) : bool :=
  isna (cell r "uid_number") || isin (astype_str (cell r "uid_number")) inv_list.

Definition filter_date (df_raw : DataFrame) (date_range : Z * Z) : DataFrame :=
  select_rows (in_date_range date_range) df_raw.

(** [if po_list: ...]: an empty list is falsy *)
Definition filter_po (po_list : list string) (df_filtered : DataFrame) : DataFrame :=
  match po_list with
  | [] => df_filtered
  | _ => select_rows (λ r, isin (astype_str (cell r "po_number")) po_list) df_filtered
  end.

(** [if inv_list: ...] *)
Definition filter_invoice (df_raw : DataFrame) (inv_list : list string)
    (df_filtered : DataFrame) : DataFrame :=
  match inv_list with
  | [] => df_filtered
  | _ =>
      let po_of_invoice := po_of_invoice df_raw inv_list in
      let df_filtered :=
        select_rows (λ r, isin (cell r "po_number") po_of_invoice) df_filtered in
      select_rows (invoice_mask inv_list) df_filtered
  end.

(** [df_filtered] as the script leaves it at line 131 *)
Definition df_filtered (df_raw : DataFrame) (date_range : Z * Z)
    (po_list inv_list : list string) : DataFrame :=
  filter_invoice df_raw inv_list (filter_po po_list (filter_date df_raw date_range)).

End Filters.
End Filters.

(** ** The activity selection *)

Module Activities.

Definition pr_acts : list string := ["PR Cancelled"; "PR Purchase Request"].
Definition po_acts : list string := ["PO From SAP"; "PO From WISE"].
Definition gr_acts : list string := ["GR (PO reversal)"; "GR (Return)"; "GR Goods Receipt"].
Definition inv_acts : list string :=
  ["Invoice Created"; "Invoice Errors"; "Invoice Payment"; "Invoice Posted";
   "Invoice Unprocessed"; "Invoice WF_DP_APPROV"; "Invoice WF_FI_APPROV";
   "Invoice WF_GL_DISCREP"; "Invoice WF_GR_MISSING"; "Invoice WF_PO_MISSING";
   "Invoice WF_PRICE_DISC"; "Invoice WF_QUANT_DISC"; "Invoice WF_Unknown"].
Definition wf_acts : list string :=
  ["WF Data_Update"; "WF FI_APPROV_Being processed"; "WF FI_APPROV_Declined";
   "WF FI_APPROV_Recalled"; "WF FI_APPROV_Released"; "WF FI_APPROV_Sent";
   "WF GR_Missing_Being processed"; "WF GR_Missing_Declined";
   "WF GR_Missing_Recalled"; "WF GR_Missing_Released"; "WF GR_Missing_Sent";
   "WF INFO_Being processed"; "WF INFO_Declined"; "WF INFO_Recalled";
   "WF INFO_Released"; "WF INFO_Sent"; "WF PO_MISSING_Being processed";
   "WF PO_MISSING_Declined"; "WF PO_MISSING_Recalled"; "WF PO_MISSING_Released";
   "WF PO_MISSING_Sent"; "WF PRICE_DISC_Declined"; "WF PRICE_DISC_Recalled";
   "WF PRICE_DISC_Released"; "WF PRICE_DISC_Sent"].

Definition all_available_acts : list string :=
  pr_acts ++ po_acts ++ gr_acts ++ inv_acts ++ wf_acts.

(** The options of the "Select main activities" multiselect, the keys of
    [group_map] *)
Inductive Group := PR | PO | GR | Invoicing | Workflow.

Definition group_map (g : Group) : list string :=
  match g with
  | PR => pr_acts
  | PO => po_acts
  | GR => gr_acts
  | Invoicing => inv_acts
  | Workflow => wf_acts
  end.

(** The radio [act_mode] together with the widget its branch shows: the
    group multiselect exists only under "Main activities", the individual
    multiselect only under "Sub-activities". *)
Inductive ActMode :=
| All
| MainActivities (groups : list Group)
| SubActivities (acts : list string).

(** [selected_acts] after the branch on [act_mode]; under "Main
    activities" the loop [for g in groups: selected_acts.extend(group_map[g])] *)
Definition selected_acts (act_mode : ActMode) : list string :=
  match act_mode with
  | All => all_available_acts
  | MainActivities groups => foldl (λ acc g, acc ++ group_map g) [] groups
  | SubActivities acts => acts
  end.

(** [[a for a in selected_acts if a not in exclude_acts]] *)
Definition final_activities (selected_acts exclude_acts : list string) : list string :=
  filter (λ a, a ∉ exclude_acts) selected_acts.

(** The selection as the specification words it: the activities of the
    chosen groups united with the individually chosen ones. *)
Definition chosen_groups (act_mode : ActMode) : list Group :=
  match act_mode with MainActivities groups => groups | _ => [] end.

Definition chosen_individually (act_mode : ActMode) : list string :=
  match act_mode with SubActivities acts => acts | _ => [] end.

Definition selected_by_union (act_mode : ActMode) : list string :=
  (chosen_groups act_mode ≫= group_map) ++ chosen_individually act_mode.

End Activities.

(** ** The table handed to pm4py *)

Module Builder.

(** [df.drop_duplicates()]: two rows are duplicates when they agree on every
    column (missing values compare equal); the first one stays *)
Definition drop_duplicates (df : DataFrame) : DataFrame :=
  mkDF (columns df) (unique (rows df)).

(** ['e' + df_ocel_prep.index.astype(str)]; after [reset_index(drop=True)]
    the index of a row is its position *)
Definition eid (i : nat) : Value := VStr ("e" +:+ pretty i).

(** [df_ocel_prep['ocel:eid'] = ...] *)
Definition assign_eid (df : DataFrame) : DataFrame :=
  mkDF (if bool_decide ("ocel:eid" ∈ columns df) then columns df
        else columns df ++ ["ocel:eid"])
       (imap (λ i r, <["ocel:eid" := eid i]> r) (rows df)).

(** the [columns=] dictionary of the [rename] call *)
Definition ocel_columns : list (string * string) :=
  [("date", "ocel:timestamp"); ("activity", "ocel:activity");
   ("item_line", "ocel:type:item"); ("po_line", "ocel:type:po");
   ("gr_line", "ocel:type:gr"); ("inv_line", "ocel:type:inv");
   ("wf_line", "ocel:type:wf")].

Definition rename_label (mapping : list (string * string)) (c : string) : string :=
  default c ((list_to_map mapping : gmap string string) !! c).

Definition rename_key (r : gmap string Value) (label : string * string) : gmap string Value :=
  match r !! label.1 with
  | Some v => <[label.2 := v]> (delete label.1 r)
  | None => r
  end.

(** [df.rename(columns=mapping)] *)
Definition rename (mapping : list (string * string)) (df : DataFrame) : DataFrame :=
  mkDF (rename_label mapping <$> columns df)
       ((λ r, foldl rename_key r mapping) <$> rows df).

(** [df_ocel_prep] as written to ["temp_ocel.csv"]: one row per event *)
Definition df_ocel_prep (df_filtered : DataFrame) : DataFrame :=
  rename ocel_columns (assign_eid (drop_duplicates df_filtered)).

End Builder.

(** ** The pm4py interface *)

Module Pm4py.

Inductive Annotation := frequency | performance.
Inductive ActMetric := act_unique_objects | act_events.
Inductive EdgeMetric := edge_unique_objects | edge_event_couples.
Inductive TimeOp := mean | sum.

(** The keyword arguments of a [pm4py.save_vis_ocdfg] call; [None] when the
    call leaves the keyword out *)
Record VisArgs := mkVisArgs {
  annotation : Annotation;
  act_metric : option ActMetric;
  edge_metric : option EdgeMetric;
  performance_aggregation : option TimeOp
}.

End Pm4py.

(** ** The sidebar: the date slider and the two identifier lists *)

Module Sidebar.

(** [str.isspace] on one character of a text of code points below 256 *)
Definition is_space (c : Ascii.ascii) : bool :=
  bool_decide (Ascii.N_of_ascii c ∈ [9; 10; 11; 12; 13; 28; 29; 30; 31; 32; 133; 160]%N).

(** the character [,] *)
Definition comma : Ascii.ascii := Ascii.ascii_of_N 44.

(** [re.split(r',|, ', text)]: the first alternative matches at every
    comma, so the text is cut at each comma and the second alternative is
    never used; the pieces are never none *)
Fixpoint split (text : string) : list string :=
  match text with
  | EmptyString => [EmptyString]
  | String c text' =>
      if decide (c = comma) then EmptyString :: split text'
      else match split text' with
           | piece :: pieces => String c piece :: pieces
           | [] => [String c EmptyString]
           end
  end.

Fixpoint lstrip (x : string) : string :=
  match x with
  | EmptyString => EmptyString
  | String c x' => if is_space c then lstrip x' else x
  end.

Fixpoint rstrip (x : string) : string :=
  match x with
  | EmptyString => EmptyString
  | String c x' =>
      match rstrip x' with
      | EmptyString => if is_space c then EmptyString else String c EmptyString
      | kept => String c kept
      end
  end.

(** [x.strip()] *)
Definition strip (x : string) : string := rstrip (lstrip x).

(** [[x.strip() for x in re.split(r',|, ', text) if x.strip()]]: an empty
    string is falsy *)
Definition split_input (text : string) : list string :=
  strip <$> filter (λ x, strip x ≠ EmptyString) (split text).

(** [po_list] and [inv_list]: empty while the "Include all" box is ticked,
    else read from the text input *)
Definition id_list (include_all : bool) (text : string) : list string :=
  if include_all then [] else split_input text.

(** the instants of the [timestamp] column; [min()] and [max()] skip the
    missing ones *)
Definition timestamps (df : DataFrame) : list Z :=
  omap (λ r, match cell r "timestamp" with VTime t => Some t | _ => None end) (rows df).

(** [Timestamp.to_pydatetime()]: a Python datetime counts microseconds, the
    nanoseconds below are discarded *)
Definition to_pydatetime (t : Z) : Z := 1000 * (t `div` 1000).

(** [df_raw['timestamp'].min().to_pydatetime()]; [None] when no row has an
    instant *)
Definition min_ts (df_raw : DataFrame) : option Z :=
  match timestamps df_raw with
  | [] => None
  | t :: ts => Some (to_pydatetime (foldr Z.min t ts))
  end.

Definition max_ts (df_raw : DataFrame) : option Z :=
  match timestamps df_raw with
  | [] => None
  | t :: ts => Some (to_pydatetime (foldr Z.max t ts))
  end.

(** the value [(min_ts, max_ts)] the slider starts with *)
Definition default_range (df_raw : DataFrame) : option (Z * Z) :=
  lo ← min_ts df_raw; hi ← max_ts df_raw; Some (lo, hi).

End Sidebar.

(** ** The script *)

Module App.
Import Pm4py.

(** The radio [filter_type] with the widget of its branch *)
Inductive FilterType :=
| object_filter (selected_objects : list string)
| start_event_filter (selected_start_event : string).

(** What the run does that can be observed: messages and tables shown, files
    written, pm4py calls, and the date slider with the bounds it is given
    ([None] for [NaT]).  Static text ([st.markdown], [st.header],
    [st.caption], ...) is left out, and a widget is represented by the
    value it returns, given as an argument to the script. *)
Inductive Effect :=
| St_error (msg : string)
| St_title
| St_slider (min_value max_value : option Z)
| To_csv (file : string) (df : DataFrame)
| Read_ocel (file : string)
| Filter_ocel_object_attribute (types : list string)
| Filter_ocel_start_events_per_object_type (type : string)
| Filter_ocel_event_attribute (activities : list string)
| Discover_ocdfg
| Save_vis_ocdfg (file : string) (args : VisArgs)
| St_dataframe (df : DataFrame)
| St_image (file : string)
| St_download_button (file : string).

(** The values returned by the widgets *)
Record Inputs := mkInputs {
  date_range : Z * Z;
  po_list : list string;
  inv_list : list string;
  filter_type : FilterType;
  act_mode : Activities.ActMode;
  exclude_acts : list string;
  ui_act_metric : ActMetric;
  ui_edge_metric : EdgeMetric;
  time_op : TimeOp
}.

(** What the libraries do with a call of the block under
    [if df_raw is not None:] is not in the script: [raised call] is the
    exception the call raises in this run, [None] when it returns.  Nothing
    in that block is caught. *)
Class Runtime := {
  raised : Effect → option exn
}.

Definition head (n : nat) (df : DataFrame) : DataFrame :=
  mkDF (columns df) (take n (rows df)).

Definition pm_display (df_filtered : DataFrame) (object_or_event_filter : FilterType)
    (final_activities : list string)
    (act_metric : ActMetric) (edge_metric : EdgeMetric) (time_op : TimeOp) : list Effect :=
  [ match object_or_event_filter with
    | object_filter selected_filter => Filter_ocel_object_attribute selected_filter
    | start_event_filter selected_filter =>
        Filter_ocel_start_events_per_object_type selected_filter
    end;
    Filter_ocel_event_attribute final_activities;
    Discover_ocdfg;
    Save_vis_ocdfg "diag_count.png"
      (mkVisArgs frequency (Some act_metric) (Some edge_metric) None);
    Save_vis_ocdfg "diag_time.png"
      (mkVisArgs performance (Some act_events) None (Some time_op));
    St_dataframe (head 50 df_filtered);
    St_image "diag_count.png";
    St_image "diag_time.png";
    St_download_button "diag_count.png";
    St_download_button "diag_time.png" ].

Section Script.
Context `{Pandas} {runtime : Runtime}.

(** The calls of the block under [if df_raw is not None:] in the order of
    the script, and the way the block ends once they have all returned.
    With the start-event option of the radio the script calls
    [st.selectbox(..., default=['item'])] (lines 153-155); [st.selectbox]
    has no keyword [default], so that the call raises [TypeError] before
    anything is written or handed to pm4py. *)
Definition script (df_raw : DataFrame) (ui : Inputs) : list Effect * result () :=
  let df_filtered := Filters.df_filtered df_raw (date_range ui) (po_list ui) (inv_list ui) in
  let final_activities :=
    Activities.final_activities (Activities.selected_acts (act_mode ui)) (exclude_acts ui) in
  let df_ocel_prep := Builder.df_ocel_prep df_filtered in
  let sidebar := [St_title; St_slider (Sidebar.min_ts df_raw) (Sidebar.max_ts df_raw)] in
  match filter_type ui with
  | start_event_filter _ => (sidebar, Raise TypeError)
  | object_filter _ =>
      (sidebar
       ++ [To_csv "temp_ocel.csv" df_ocel_prep; Read_ocel "temp_ocel.csv"]
       ++ pm_display df_filtered (filter_type ui) final_activities
            (ui_act_metric ui) (ui_edge_metric ui) (time_op ui),
       Ok ())
  end.

(** The calls are made in order; the first that raises ends the run, and
    [finish] is the end reached when none does. *)
Fixpoint run (calls : list Effect) (finish : result ()) : list Effect * result () :=
  match calls with
  | [] => ([], finish)
  | call :: calls' =>
      match raised call with
      | Some e => ([], Raise e)
      | None => let '(made, r) := run calls' finish in (call :: made, r)
      end
  end.

(** The effects of the block under [if df_raw is not None:], in order *)
Definition pipeline (df_raw : DataFrame) (ui : Inputs) : list Effect :=
  (run (script df_raw ui).1 (script df_raw ui).2).1.

(** The way that block ends *)
Definition outcome (df_raw : DataFrame) (ui : Inputs) : result () :=
  (run (script df_raw ui).1 (script df_raw ui).2).2.

(** One run of the script: the effects in order, and how the run ends *)
Definition main (file : option DataFrame) (ui : Inputs) : list Effect * result () :=
  let '(errors, df_raw) := Loader.load_data file in
  match df_raw with
  | Raise e => (St_error <$> errors, Raise e)
  | Ok None => (St_error <$> errors, Ok ())
  | Ok (Some df_raw) => ((St_error <$> errors) ++ pipeline df_raw ui, outcome df_raw ui)
  end.

End Script.
End App.

(** ** Files in the trace of a run *)

Module Trace.
Import App.

(** the file an effect writes: [to_csv] and [save_vis_ocdfg] *)
Definition writes (eff : Effect) : option string :=
  match eff with
  | To_csv file _ => Some file
  | Save_vis_ocdfg file _ => Some file
  | _ => None
  end.

(** the file an effect reads: [read_ocel], [st.image] and the [open] of a
    download button *)
Definition reads (eff : Effect) : option string :=
  match eff with
  | Read_ocel file => Some file
  | St_image file => Some file
  | St_download_button file => Some file
  | _ => None
  end.

End Trace.

(** ** A concrete instance of the library operations

    Used by the examples: numbers are read by a decimal-integer reader
    (with ["inf"] for the infinite float), dates by a reader that knows
    the dates of the sample tables and, as the ISO parser of pandas does,
    skips white space before a date; [year] is the Gregorian year of an
    instant counted in nanoseconds since 1970-01-01. *)

Module Sample.

Definition ns_per_day : Z := 86400 * 1000000000.

Definition civil_year (t : Z) : Z :=
  let z := t `div` ns_per_day + 719468 in
  let era := z `div` 146097 in
  let doe := z - era * 146097 in
  let yoe := (doe - doe `div` 1460 + doe `div` 36524 - doe `div` 146096) `div` 365 in
  let doy := doe - (365 * yoe + yoe `div` 4 - yoe `div` 100) in
  let mp := (5 * doy + 2) `div` 153 in
  yoe + era * 400 + (if bool_decide (mp < 10) then 0 else 1).

(** day numbers (since 1970-01-01) of the dates the sample reader knows *)
Definition known_dates : list (string * Z) :=
  [("2019-12-31", 18261); ("2020-01-01", 18262); ("2020-03-05", 18326);
   ("2021-06-15", 18793); ("2025-12-31", 20453); ("2026-01-01", 20454)].

(** dates with a UTC offset that the sample reader knows: the instant, in
    seconds since 1970-01-01 UTC, and the offset in seconds *)
Definition zoned_dates : list (string * (Z * Z)) :=
  [("2020-03-05T12:00:00+01:00", (18326 * 86400 + 11 * 3600, 3600));
   ("2020-03-05T12:00:00+02:00", (18326 * 86400 + 10 * 3600, 7200))].

(** white space in the sense of C's [isspace], which the parser skips
    before the year *)
Fixpoint skip_blanks (s : string) : string :=
  match s with
  | EmptyString => EmptyString
  | String c s' =>
      if bool_decide (Ascii.N_of_ascii c ∈ [9; 10; 11; 12; 13; 32]%N) then skip_blanks s'
      else s
  end.

Definition read_date (v : Value) : option Z :=
  match v with
  | VStr s =>
      match (list_to_map known_dates : gmap string Z) !! skip_blanks s with
      | Some d => Some (d * ns_per_day)
      | None =>
          (λ zoned : Z * Z, zoned.1 * 1000000000)
            <$> (list_to_map zoned_dates : gmap string (Z * Z)) !! skip_blanks s
      end
  | _ => None
  end.

Definition read_offset (v : Value) : option Z :=
  match v with
  | VStr s => snd <$> (list_to_map zoned_dates : gmap string (Z * Z)) !! skip_blanks s
  | _ => None
  end.

Definition read_number (s : string) : option Num :=
  if bool_decide (s = "inf") then Some Infinite
  else (λ i, Finite (inject_Z (Z.of_int i))) <$> DecimalString.NilZero.int_of_string s.

#[export] Instance pandas : Pandas := {|
  parse_number := read_number;
  to_datetime := read_date;
  utc_offset := read_offset;
  year := civil_year;
  isoformat := pretty
|}.

(** a raw row as [pd.read_csv] delivers it *)
Definition raw_row (idx po uid act date : Value) : gmap string Value :=
  list_to_map
    [("Unnamed: 0", idx); ("po_number", po); ("pr_po_no", NaN); ("uid_number", uid);
     ("activity", act); ("date", date); ("item", NaN); ("item_line", NaN);
     ("po_line", NaN); ("gr_number", NaN); ("gr_line", NaN); ("inv_line", NaN);
     ("wf_line", NaN)].

Definition raw_columns : list string :=
  ["Unnamed: 0"; "po_number"; "pr_po_no"; "uid_number"; "activity"; "date"; "item";
   "item_line"; "po_line"; "gr_number"; "gr_line"; "inv_line"; "wf_line"].

Definition dataset : DataFrame :=
  mkDF raw_columns
    [raw_row (VInt 0) (VInt 4500) NaN (VStr "PO From SAP") (VStr "2019-12-31");
     raw_row (VInt 1) (VStr "n/a") (VStr "5100") (VStr "Invoice Created") (VStr "2020-03-05");
     raw_row (VInt 2) (VInt 4500) NaN (VStr "GR Goods Receipt") (VStr "2021-06-15");
     raw_row (VInt 3) (VInt 4501) NaN (VStr "PO From WISE") (VStr "garbage")].

(** the table [load_data] returns for the sample file *)
Definition loaded : DataFrame :=
  match Loader.clean dataset with
  | Ok df => df
  | Raise _ => mkDF [] []
  end.

(** a row of the canonical table *)
Definition canonical_row (po : Z) (uid : Value) (act : string) (date : string) (t : Z)
    : gmap string Value :=
  list_to_map
    [("po_number", VInt po); ("pr_po_no", NaN); ("uid_number", uid);
     ("activity", VStr act); ("date", VStr date); ("timestamp", VTime t);
     ("item", NaN); ("item_line", NaN); ("po_line", NaN); ("gr_number", NaN);
     ("gr_line", NaN); ("inv_line", NaN); ("wf_line", NaN)].

(** PO 4500 is ordered in March 2020 and invoiced (invoice 5100) in June
    2021; PO 4501 has no invoice; the order of PO 4500 was exported twice. *)
Definition df_raw : DataFrame :=
  mkDF Loader.cols_to_keep
    [canonical_row 4500 NaN "PO From SAP" "2020-03-05" (18326 * ns_per_day);
     canonical_row 4501 NaN "PO From WISE" "2020-03-05" (18326 * ns_per_day);
     canonical_row 4500 NaN "PO From SAP" "2020-03-05" (18326 * ns_per_day);
     canonical_row 4500 (VStr "5100") "Invoice Created" "2021-06-15" (18793 * ns_per_day)].

(** the year 2020 on the date slider *)
Definition year_2020 : Z * Z := (18262 * ns_per_day, 18627 * ns_per_day).

(** the values returned by the widgets in a default run *)
Definition ui : App.Inputs :=
  App.mkInputs year_2020 [] [] (App.object_filter ["item"])
    (Activities.MainActivities [Activities.PO; Activities.GR]) []
    Pm4py.act_unique_objects Pm4py.edge_unique_objects Pm4py.mean.

(** the same file with a [po_number] that reads as the infinite float *)
Definition dataset_inf : DataFrame :=
  mkDF raw_columns
    [raw_row (VInt 0) (VStr "inf") NaN (VStr "PO From SAP") (VStr "2019-12-31");
     raw_row (VInt 1) (VInt 4500) NaN (VStr "GR Goods Receipt") (VStr "2021-06-15")].

(** a file whose only date has a blank before the year *)
Definition dataset_blank : DataFrame :=
  mkDF raw_columns
    [raw_row (VInt 0) (VInt 4500) NaN (VStr "PO From SAP") (VStr " 2020-03-05")].

(** a file with two dates of the same day written with different UTC
    offsets *)
Definition dataset_zones : DataFrame :=
  mkDF raw_columns
    [raw_row (VInt 0) (VInt 4500) NaN (VStr "PO From SAP")
       (VStr "2020-03-05T12:00:00+01:00");
     raw_row (VInt 1) (VInt 4500) NaN (VStr "GR Goods Receipt")
       (VStr "2020-03-05T12:00:00+02:00")].

(** a run in which every library call returns *)
#[export] Instance runtime : App.Runtime := {|
  App.raised := λ _, None
|}.

(** a run in which the diagrams cannot be drawn *)
Definition no_graphviz : App.Runtime := {|
  App.raised := λ call,
    match call with
    | App.Save_vis_ocdfg _ _ => Some (OtherError "ExecutableNotFound")
    | _ => None
    end
|}.

(** the widgets of a run with the start-event option chosen *)
Definition ui_start_event : App.Inputs :=
  App.mkInputs year_2020 [] [] (App.start_event_filter "item")
    (Activities.MainActivities [Activities.PO; Activities.GR]) []
    Pm4py.act_unique_objects Pm4py.edge_unique_objects Pm4py.mean.

End Sample.

(** * Properties *)

(** Membership in a list that is written out *)
Ltac in_list := apply (bool_decide_unpack _); vm_compute; exact I.

Section traverse.
Context {A B : Type} (f : A → result B).

Lemma traverse_Ok l l' :
  traverse f l = Ok l' ↔ Forall2 (λ a b, f a = Ok b) l l'.
Proof.
  revert l'. induction l as [|a l IH]; intros l'; simpl.
  - split; [intros [= <-]; constructor | by inversion 1].
  - destruct (f a) as [b|e] eqn:Ha; simpl.
    + destruct (traverse f l) as [bs|e] eqn:Hl; simpl.
      * split.
        -- intros [= <-]. constructor; [done | by apply IH].
        -- inversion 1 as [|? b' ? bs' Hb Hbs]; subst.
           apply IH in Hbs. congruence.
      * split; [done |].
        inversion 1 as [|? b' ? bs' Hb Hbs]; subst.
        apply IH in Hbs. discriminate.
    + split; [done |]. inversion 1; congruence.
Qed.

Lemma traverse_Raise l e :
  traverse f l = Raise e → ∃ a, a ∈ l ∧ f a = Raise e.
Proof.
  induction l as [|a l IH]; simpl; [done |].
  destruct (f a) as [b|e'] eqn:Ha; simpl.
  - destruct (traverse f l) as [bs|e'] eqn:Hl; simpl; [done |].
    intros [= ->]. destruct IH as (a' & ? & ?); [done |].
    exists a'. split; [by right | done].
  - intros [= ->]. exists a. split; [by left | done].
Qed.

End traverse.

(** ** [load_data] *)

Module LoaderFacts.
Import Loader.
Section LoaderFacts.
Context `{Pandas}.

Lemma lookup_restrict cols (r : gmap string Value) c :
  c ∈ cols → restrict cols r !! c = r !! c.
Proof.
  intros Hc. unfold restrict. destruct (r !! c) as [v|] eqn:Hr.
  - by apply map_lookup_filter_Some.
  - apply map_lookup_filter_None. by left.
Qed.

Lemma cell_restrict cols r c : c ∈ cols → cell (restrict cols r) c = cell r c.
Proof.
  intros Hc. unfold cell. by rewrite !lookup_total_alt, lookup_restrict.
Qed.

Lemma restrict_keys cols (r : gmap string Value) c :
  is_Some (restrict cols r !! c) → c ∈ cols.
Proof.
  intros [v Hv]. unfold restrict in Hv.
  by apply map_lookup_filter_Some in Hv as [_ ?].
Qed.

Lemma cell_insert_ne (r : gmap string Value) k c v :
  k ≠ c → cell (<[k := v]> r) c = cell r c.
Proof. intros. unfold cell. by rewrite lookup_total_insert_ne. Qed.

Lemma cell_insert_eq (r : gmap string Value) k v : cell (<[k := v]> r) k = v.
Proof. unfold cell. by rewrite lookup_total_insert_eq. Qed.

Lemma drop_unnamed_rows ds c :
  c ∈ columns (drop_unnamed ds) →
  Forall2 (λ r r', cell r' c = cell r c) (rows ds) (rows (drop_unnamed ds)).
Proof.
  intros Hc. unfold drop_unnamed in *; simpl in *.
  apply Forall2_fmap_r, Forall_Forall2_diag, Forall_forall.
  intros r _. simpl. by apply cell_restrict.
Qed.

Lemma coerce_po_number_Ok df df' :
  coerce_po_number df = Ok df' →
  columns df' = columns df ∧
  Forall2 (λ r r', (∀ c, c ≠ "po_number" → cell r' c = cell r c) ∧
                   ("po_number" ∈ columns df →
                    ∃ z, coerce_po (cell r "po_number") = Ok z ∧
                         cell r' "po_number" = VInt z))
          (rows df) (rows df').
Proof.
  unfold coerce_po_number. case_bool_decide as Hpo.
  - destruct (traverse _ (rows df)) as [rs|e] eqn:Hrs; simpl; [|done].
    intros [= <-]; simpl. split; [done |].
    apply traverse_Ok in Hrs. eapply Forall2_impl; [exact Hrs |].
    intros r r'; simpl. destruct (coerce_po (cell r "po_number")) as [z|] eqn:Hz;
      simpl; [|done].
    intros [= <-]. split.
    + intros c Hc. by apply cell_insert_ne.
    + intros _. rewrite cell_insert_eq. eauto.
  - intros [= <-]. split; [done |].
    apply Forall_Forall2_diag, Forall_forall. intros r _. split; [done | tauto].
Qed.

Lemma coerce_po_number_Raise df e :
  coerce_po_number df = Raise e →
  e = IntCastingNaNError ∧
  ∃ r, r ∈ rows df ∧ to_numeric_coerce (cell r "po_number") = Some Infinite.
Proof.
  unfold coerce_po_number. case_bool_decide; [|done].
  destruct (traverse _ (rows df)) as [rs|e'] eqn:Hrs; simpl; [done |].
  intros [= ->]. apply traverse_Raise in Hrs as (r & Hr & Hraise).
  unfold coerce_po in Hraise.
  destruct (to_numeric_coerce (cell r "po_number")) as [[q| |z]|] eqn:Hn;
    simpl in Hraise; try discriminate.
  injection Hraise as <-. eauto.
Qed.

Lemma wrap64_range z : int64_min ≤ wrap64 z ≤ int64_max.
Proof.
  unfold wrap64, int64_min, int64_max.
  pose proof (Z.mod_pos_bound (z + 2 ^ 63) (2 ^ 64) ltac:(done)). lia.
Qed.

Lemma wrap64_id z : int64_min ≤ z ≤ int64_max → wrap64 z = z.
Proof.
  unfold wrap64, int64_min, int64_max. intros Hz.
  rewrite Z.mod_small by lia. lia.
Qed.

(** Whatever the cell, the cast gives an int64. *)
Lemma coerce_po_range v z : coerce_po v = Ok z → int64_min ≤ z ≤ int64_max.
Proof.
  unfold coerce_po.
  destruct (fillna0 (to_numeric_coerce v)) as [q| |z']; simpl; [| done |].
  - intros [= <-]. case_bool_decide; [done |]. unfold int64_min, int64_max. lia.
  - intros [= <-]. apply wrap64_range.
Qed.

#[local] Instance VStr_inj : Inj (=) (=) VStr.
Proof. by intros ?? [= ->]. Qed.

Lemma filter_years_Ok df df' :
  filter_years df = Ok df' →
  "date" ∈ columns df ∧
  Forall2 (λ r r', r' = <["date_str" := VStr (date_str r)]> r)
          (filter (λ r, in_year_filter r) (rows df)) (rows df').
Proof.
  unfold filter_years. case_bool_decide; [|done].
  intros [= <-]; simpl. split; [done |].
  apply Forall2_filter.
  - intros r ? ->. rewrite cell_insert_eq. unfold in_year_filter, isin.
    rewrite !bool_decide_spec. symmetry.
    apply (list_elem_of_fmap_inj VStr year_strs (date_str r)).
  - by apply Forall2_fmap_r, Forall_Forall2_diag, Forall_forall.
Qed.

Lemma filter_years_Raise df e :
  filter_years df = Raise e → e = KeyError ["date"].
Proof. unfold filter_years. case_bool_decide; [done | congruence]. Qed.

Lemma same_zone_spec (offsets : list (option Z)) :
  same_zone offsets = true ↔ ∀ o o', o ∈ offsets → o' ∈ offsets → o = o'.
Proof.
  destruct offsets as [|o os]; simpl.
  - split; [|done]. by intros _ ? ? ?%elem_of_nil.
  - rewrite forallb_forall. split.
    + intros Hall.
      assert (Hfirst : ∀ x, x ∈ o :: os → x = o).
      { intros x [->|Hx]%elem_of_cons; [done |].
        apply list_elem_of_In, Hall in Hx. by apply bool_decide_eq_true in Hx. }
      intros o1 o2 ->%Hfirst ->%Hfirst. done.
    + intros Hsame x Hx%list_elem_of_In. apply bool_decide_eq_true.
      apply Hsame; [by right | by left].
Qed.

Lemma same_zone_rows (rs : list (gmap string Value)) :
  same_zone ((λ r, utc_offset (cell r "date")) <$> rs) = true ↔ one_zone rs.
Proof.
  rewrite same_zone_spec. unfold one_zone. split.
  - intros Hsame r r' Hr Hr'. apply Hsame; apply list_elem_of_fmap; eauto.
  - intros Hsame o o' (r & -> & Hr)%list_elem_of_fmap (r' & -> & Hr')%list_elem_of_fmap.
    by apply Hsame.
Qed.

Lemma parse_timestamps_Ok df df' :
  parse_timestamps df = Ok df' →
  Forall2 (λ r r', ∃ t, to_datetime (cell r "date") = Some t ∧
                        r' = <["timestamp" := VTime t]> r)
          (rows df) (rows df') ∧
  one_zone (rows df).
Proof.
  unfold parse_timestamps.
  destruct (traverse _ (rows df)) as [rs|e] eqn:Hrs; simpl; [|done].
  destruct (same_zone _) eqn:Hzone; [|done].
  intros [= <-]; simpl. split; [|by apply same_zone_rows].
  apply traverse_Ok in Hrs.
  eapply Forall2_impl; [exact Hrs |]. intros r r'; simpl.
  destruct (to_datetime (cell r "date")) as [t|]; [|done].
  intros [= <-]. eauto.
Qed.

Lemma parse_timestamps_Raise df e :
  parse_timestamps df = Raise e →
  e = ValueError ∧
  ((∃ r, r ∈ rows df ∧ to_datetime (cell r "date") = None) ∨ ¬ one_zone (rows df)).
Proof.
  unfold parse_timestamps.
  destruct (traverse _ (rows df)) as [rs|e'] eqn:Hrs; simpl.
  - destruct (same_zone _) eqn:Hzone; [done |].
    intros [= <-]. split; [done |]. right.
    intros Hone%same_zone_rows. congruence.
  - intros [= ->]. apply traverse_Raise in Hrs as (r & Hr & Hraise).
    destruct (to_datetime (cell r "date")) as [t|] eqn:Ht; [done |].
    injection Hraise as <-. eauto.
Qed.

Lemma keep_columns_Ok df df' :
  keep_columns df = Ok df' →
  columns df' = cols_to_keep ∧ rows df' = restrict cols_to_keep <$> rows df.
Proof.
  unfold keep_columns. destruct (missing cols_to_keep df); [|done].
  by intros [= <-].
Qed.

Lemma keep_columns_Raise df e :
  keep_columns df = Raise e → ∃ m, e = KeyError m.
Proof.
  unfold keep_columns. destruct (missing cols_to_keep df); [done |].
  intros [= <-]. eauto.
Qed.

Lemma clean_Ok ds df :
  clean ds = Ok df →
  ∃ df1 df2 df3,
    coerce_po_number (drop_unnamed ds) = Ok df1 ∧ filter_years df1 = Ok df2 ∧
    parse_timestamps df2 = Ok df3 ∧ keep_columns df3 = Ok df.
Proof.
  unfold clean.
  destruct (coerce_po_number _) as [df1|] eqn:H1; simpl; [|done].
  destruct (filter_years df1) as [df2|] eqn:H2; simpl; [|done].
  destruct (parse_timestamps df2) as [df3|] eqn:H3; simpl; [|done].
  intros H4. by exists df1, df2, df3.
Qed.

Lemma date_str_cell r r' : cell r' "date" = cell r "date" → date_str r' = date_str r.
Proof. unfold date_str. by intros ->. Qed.

(** The rows of the table that reach the year filter correspond to the rows
    of the file, with the same date cell. *)
Lemma rows_before_filter ds df1 :
  coerce_po_number (drop_unnamed ds) = Ok df1 → "date" ∈ columns df1 →
  Forall2 (λ r r1, cell r1 "date" = cell r "date") (rows ds) (rows df1).
Proof.
  intros [Hcols H1]%coerce_po_number_Ok Hdate. rewrite Hcols in Hdate.
  eapply Forall2_trans; [| by apply drop_unnamed_rows | exact H1].
  simpl. intros r r0 r1 H0 [Hne _]. by rewrite Hne.
Qed.

Lemma Forall2_elem_of_r {A B} (P : A → B → Prop) l k y :
  Forall2 P l k → y ∈ k → ∃ x, x ∈ l ∧ P x y.
Proof.
  intros HF [i Hi]%list_elem_of_lookup.
  destruct (Forall2_lookup_r _ _ _ _ _ HF Hi) as (x & Hx & HP).
  exists x. split; [by eapply list_elem_of_lookup_2 | done].
Qed.

Lemma clean_Raise ds e :
  clean ds = Raise e →
  coerce_po_number (drop_unnamed ds) = Raise e ∨
  ∃ df1, coerce_po_number (drop_unnamed ds) = Ok df1 ∧
    (filter_years df1 = Raise e ∨
     ∃ df2, filter_years df1 = Ok df2 ∧
       (parse_timestamps df2 = Raise e ∨
        ∃ df3, parse_timestamps df2 = Ok df3 ∧ keep_columns df3 = Raise e)).
Proof.
  unfold clean.
  destruct (coerce_po_number _) as [df1|] eqn:H1; simpl; [|by left].
  intros He. right. exists df1. split; [done |].
  destruct (filter_years df1) as [df2|] eqn:H2; simpl in He; [|by left].
  right. exists df2. split; [done |].
  destruct (parse_timestamps df2) as [df3|] eqn:H3; simpl in He; [|by left].
  right. by exists df3.
Qed.

(** C4 (amended).  A table returned by [load_data] has exactly the thirteen
    columns of [cols_to_keep], in that order: the twelve columns of the
    interface contract plus [gr_number], which sits between [po_line] and
    [gr_line]; no row carries any other column. *)
Theorem load_data_columns file errors df :
  load_data file = (errors, Ok (Some df)) →
  columns df =
    ["po_number"; "pr_po_no"; "uid_number"; "activity"; "date"; "timestamp";
     "item"; "item_line"; "po_line"; "gr_number"; "gr_line"; "inv_line"; "wf_line"]
  ∧ ∀ r c, r ∈ rows df → is_Some (r !! c) → c ∈ columns df.
Proof.
  destruct file as [ds|]; simpl; [|done].
  destruct (clean ds) as [df'|] eqn:Hclean; simpl; [|done].
  intros [= _ ->].
  apply clean_Ok in Hclean as (df1 & df2 & df3 & _ & _ & _ & Hkeep).
  apply keep_columns_Ok in Hkeep as [Hcols Hrows].
  split; [done |]. intros r c Hr Hc. rewrite Hcols.
  rewrite Hrows in Hr. apply list_elem_of_fmap in Hr as (r3 & -> & _).
  by eapply restrict_keys.
Qed.

(** C7.  A [po_number] cell that [pd.to_numeric] cannot parse becomes the
    integer 0; in the coerced column every such cell reads 0; and when the
    load stops on the integer cast, some cell of the file parsed to a
    non-finite number, so that an unparseable cell never stops the load. *)
Theorem unparseable_po_number_is_zero :
  (∀ v, to_numeric_coerce v = None → coerce_po v = Ok 0) ∧
  (∀ df df', "po_number" ∈ columns df → coerce_po_number df = Ok df' →
     Forall2 (λ r r', to_numeric_coerce (cell r "po_number") = None →
                      cell r' "po_number" = VInt 0) (rows df) (rows df')) ∧
  (∀ ds errors, load_data (Some ds) = (errors, Raise IntCastingNaNError) →
     ∃ r, r ∈ rows ds ∧ to_numeric_coerce (cell r "po_number") = Some Infinite).
Proof.
  split; [|split].
  - intros v Hv. unfold coerce_po. by rewrite Hv.
  - intros df df' Hpo [_ HF]%coerce_po_number_Ok.
    eapply Forall2_impl; [exact HF |]. intros r r'; simpl.
    intros [_ Hz] Hnone. destruct (Hz Hpo) as (z & Hco & ->).
    unfold coerce_po in Hco. rewrite Hnone in Hco. by injection Hco as <-.
  - intros ds errors. simpl.
    destruct (clean ds) as [df|e] eqn:Hclean; simpl; [done |].
    intros [= _ ->].
    apply clean_Raise in Hclean
      as [H1|(df1 & H1 & [H2|(df2 & H2 & [H3|(df3 & H3 & H4)])])].
    + pose proof H1 as Hguard. unfold coerce_po_number in Hguard.
      case_bool_decide as Hpo; [|done]. clear Hguard.
      apply coerce_po_number_Raise in H1 as (_ & r1 & Hr1 & Hinf).
      destruct (Forall2_elem_of_r _ _ _ _ (drop_unnamed_rows ds _ Hpo) Hr1)
        as (r & Hr & Hcell).
      exists r. split; [done |]. by rewrite <-Hcell.
    + by apply filter_years_Raise in H2.
    + by apply parse_timestamps_Raise in H3 as [? _].
    + by apply keep_columns_Raise in H4 as [? ?].
Qed.

Lemma same_zone_false (offsets : list (option Z)) :
  same_zone offsets = false → ∃ o o', o ∈ offsets ∧ o' ∈ offsets ∧ o ≠ o'.
Proof.
  destruct offsets as [|o os]; simpl; [done |].
  induction os as [|x os IH]; simpl; [done |].
  case_bool_decide as Hx; simpl.
  - intros (o1 & o2 & H1 & H2 & Hne)%IH. exists o1, o2.
    split; [|split; [|done]].
    + apply elem_of_cons in H1 as [->|?]; [by left | by do 2 right].
    + apply elem_of_cons in H2 as [->|?]; [by left | by do 2 right].
  - intros _. exists x, o. split; [by right; left |]. split; [by left | done].
Qed.

Lemma not_one_zone (rs : list (gmap string Value)) :
  ¬ one_zone rs →
  ∃ r r', r ∈ rs ∧ r' ∈ rs ∧ utc_offset (cell r "date") ≠ utc_offset (cell r' "date").
Proof.
  intros Hnot.
  destruct (same_zone ((λ r, utc_offset (cell r "date")) <$> rs)) eqn:Hzone.
  - by apply same_zone_rows in Hzone.
  - apply same_zone_false in Hzone as (o & o' & Ho & Ho' & Hne).
    apply list_elem_of_fmap in Ho as (r & -> & Hr).
    apply list_elem_of_fmap in Ho' as (r' & -> & Hr').
    by exists r, r'.
Qed.

Lemma in_year_filter_cell (r r1 : gmap string Value) :
  cell r1 "date" = cell r "date" → in_year_filter r ↔ in_year_filter r1.
Proof. intros Hc. unfold in_year_filter. by rewrite (date_str_cell _ _ Hc). Qed.

(** The rows that reach [pd.to_datetime] are the rows of the file that pass
    the year filter, with the same date cell. *)
Lemma rows_at_parse ds df1 df2 :
  coerce_po_number (drop_unnamed ds) = Ok df1 → filter_years df1 = Ok df2 →
  Forall2 (λ r r2 : gmap string Value, cell r2 "date" = cell r "date")
          (filter (λ r, in_year_filter r) (rows ds)) (rows df2).
Proof.
  intros H1 [Hdate H2]%filter_years_Ok.
  pose proof (rows_before_filter _ _ H1 Hdate) as H01.
  pose proof (Forall2_filter _ _ _ _ _ in_year_filter_cell H01) as H01'.
  eapply Forall2_trans; [| exact H01' | exact H2].
  simpl. intros r r1 r2 Hc ->. by rewrite cell_insert_ne.
Qed.

Lemma Forall2_elem_of_filter {A B} (P : A → B → Prop) (Q : A → Prop)
    `{∀ x, Decision (Q x)} l k y :
  Forall2 P (filter Q l) k → y ∈ k → ∃ x, x ∈ l ∧ Q x ∧ P x y.
Proof.
  intros HF Hy. destruct (Forall2_elem_of_r _ _ _ _ HF Hy) as (x & Hx & HP).
  apply list_elem_of_filter in Hx as [? ?]. eauto.
Qed.

(** When [load_data] stops on the dates, rows that pass the year filter
    are the cause: one of them has a date that does not parse, or two of
    them have dates in different zones. *)
Lemma clean_ValueError ds :
  clean ds = Raise ValueError →
  (∃ r, r ∈ rows ds ∧ in_year_filter r ∧ to_datetime (cell r "date") = None) ∨
  (∃ r r', r ∈ rows ds ∧ r' ∈ rows ds ∧ in_year_filter r ∧ in_year_filter r' ∧
           utc_offset (cell r "date") ≠ utc_offset (cell r' "date")).
Proof.
  intros Hclean.
  apply clean_Raise in Hclean
    as [H1|(df1 & H1 & [H2|(df2 & H2 & [H3|(df3 & H3 & H4)])])].
  - by apply coerce_po_number_Raise in H1 as [? _].
  - by apply filter_years_Raise in H2.
  - pose proof (rows_at_parse _ _ _ H1 H2) as H02.
    apply parse_timestamps_Raise in H3 as (_ & [(r2 & Hr2 & Hnone)|Hzone]).
    + destruct (Forall2_elem_of_filter _ _ _ _ _ H02 Hr2) as (r & Hr & Hkept & Hc).
      left. exists r. split; [done |]. split; [done |]. by rewrite <-Hc.
    + apply not_one_zone in Hzone as (r2 & r2' & Hr2 & Hr2' & Hne).
      destruct (Forall2_elem_of_filter _ _ _ _ _ H02 Hr2) as (r & Hr & Hkept & Hc).
      destruct (Forall2_elem_of_filter _ _ _ _ _ H02 Hr2') as (r' & Hr' & Hkept' & Hc').
      right. exists r, r'. rewrite <-Hc, <-Hc'. done.
  - by apply keep_columns_Raise in H4 as [? ?].
Qed.

(** The rows of a loaded table are, in order, the rows of the file that
    pass the year filter, each with its date and the timestamp parsed from
    it. *)
Lemma clean_rows_dates ds df :
  clean ds = Ok df →
  Forall2 (λ r r', cell r' "date" = cell r "date" ∧
                   ∃ t, to_datetime (cell r "date") = Some t ∧
                        cell r' "timestamp" = VTime t)
          (filter (λ r, in_year_filter r) (rows ds)) (rows df).
Proof.
  intros (df1 & df2 & df3 & H1 & H2 & H3 & H4)%clean_Ok.
  pose proof (rows_at_parse _ _ _ H1 H2) as H02.
  apply parse_timestamps_Ok in H3 as [H3 _]. apply keep_columns_Ok in H4 as [_ H4].
  rewrite H4. apply Forall2_fmap_r.
  eapply Forall2_trans; [| exact H02 | exact H3].
  simpl. intros r r2 r3 Hc (t & Ht & ->). rewrite Hc in Ht.
  assert ("date" ∈ cols_to_keep) by in_list.
  assert ("timestamp" ∈ cols_to_keep) by in_list.
  rewrite !cell_restrict by done. split.
  - by rewrite cell_insert_ne.
  - exists t. split; [done |]. by rewrite cell_insert_eq.
Qed.

Lemma in_year_filter_text r :
  in_year_filter r ↔
  ∃ y, 2020 ≤ y ≤ 2025 ∧ String.substring 0 4 (astype_str (cell r "date")) = pretty y.
Proof.
  unfold in_year_filter, isin, year_strs, date_str.
  rewrite bool_decide_spec, list_elem_of_fmap. split.
  - intros (y & Hy & Hin). exists y. split; [|done].
    clear Hy. revert y Hin. apply Forall_forall.
    repeat (apply Forall_cons; split; [lia |]). apply Forall_nil_2.
  - intros (y & Hrange & Hy). exists y. split; [done |].
    assert (y = 2020 ∨ y = 2021 ∨ y = 2022 ∨ y = 2023 ∨ y = 2024 ∨ y = 2025)
      as [->|[->|[->|[->|[->| ->]]]]] by lia; in_list.
Qed.

Lemma traverse_app {A B} (f : A → result B) l1 l2 k :
  traverse f (l1 ++ l2) = Ok k ↔
  ∃ k1 k2, k = k1 ++ k2 ∧ traverse f l1 = Ok k1 ∧ traverse f l2 = Ok k2.
Proof.
  rewrite traverse_Ok, Forall2_app_inv_l. split.
  - intros (k1 & k2 & ? & ? & ->). exists k1, k2. by rewrite !traverse_Ok.
  - intros (k1 & k2 & -> & ?%traverse_Ok & ?%traverse_Ok). by exists k1, k2.
Qed.

(** A row that fails the year test, put anywhere in a table, does not
    change what the year filter returns. *)
Lemma filter_years_skip cols before after (y : gmap string Value) :
  ¬ in_year_filter y →
  filter_years (mkDF cols (before ++ y :: after)) = filter_years (mkDF cols (before ++ after)).
Proof.
  intros Hy. unfold filter_years, select_rows, assign; simpl.
  case_bool_decide; [|done]. do 2 f_equal.
  rewrite !fmap_app, fmap_cons, !filter_app, filter_cons_False; [done |].
  simpl. rewrite cell_insert_eq. unfold in_year_filter, isin in Hy.
  rewrite bool_decide_spec in Hy. unfold isin. rewrite bool_decide_spec.
  intros Hin. apply Hy. by apply (list_elem_of_fmap_inj VStr year_strs (date_str y)).
Qed.

(** C6 (amended).  The year filter is a test on the text of the date, made
    before the date is parsed: a row passes exactly when the first four
    characters of that text are one of the years 2020 to 2025.  The rows
    of the loaded table are, in order, the rows of the file that pass, each
    with its date and the timestamp parsed from it.  A row that does not
    pass is dropped without its date being parsed: when the load stops on
    the dates the cause lies in rows that pass, and a row that does not
    pass and whose [po_number] is not read as a non-finite number can be
    put anywhere in a file that loads without changing the loaded table. *)
Theorem year_filter_exact ds :
  (∀ r, in_year_filter r ↔
        ∃ y, 2020 ≤ y ≤ 2025 ∧
             String.substring 0 4 (astype_str (cell r "date")) = pretty y) ∧
  (∀ df, clean ds = Ok df →
     Forall2 (λ r r', cell r' "date" = cell r "date" ∧
                      ∃ t, to_datetime (cell r "date") = Some t ∧
                           cell r' "timestamp" = VTime t)
             (filter (λ r, in_year_filter r) (rows ds)) (rows df)) ∧
  (clean ds = Raise ValueError →
     (∃ r, r ∈ rows ds ∧ in_year_filter r ∧ to_datetime (cell r "date") = None) ∨
     (∃ r r', r ∈ rows ds ∧ r' ∈ rows ds ∧ in_year_filter r ∧ in_year_filter r' ∧
              utc_offset (cell r "date") ≠ utc_offset (cell r' "date"))) ∧
  (∀ before after r df,
     rows ds = before ++ after → ¬ in_year_filter r →
     to_numeric_coerce (cell r "po_number") ≠ Some Infinite →
     clean ds = Ok df →
     clean (mkDF (columns ds) (before ++ r :: after)) = Ok df).
Proof.
  split; [apply in_year_filter_text |]. split; [apply clean_rows_dates |].
  split; [apply clean_ValueError |].
  intros before after r df Hrows Hout Hpo Hclean.
  destruct ds as [cols rs]; simpl in *; subst rs.
  pose proof Hclean as (df1 & df2 & df3 & H1 & H2 & _)%clean_Ok.
  apply filter_years_Ok in H2 as [Hdate _].
  apply coerce_po_number_Ok in H1 as [Hcols _]. rewrite Hcols in Hdate. clear df1 df2 df3 Hcols.
  revert Hclean. unfold clean, drop_unnamed; simpl.
  set (keep := filter (λ c, negb (String.prefix "Unnamed" c)) cols) in *.
  rewrite !fmap_app, fmap_cons.
  unfold coerce_po_number; simpl. case_bool_decide as Hkeep.
  - set (f := λ r0 : gmap string Value,
               z ← coerce_po (cell r0 "po_number"); Ok (<["po_number" := VInt z]> r0)).
    destruct (traverse f (_ ++ _)) as [k|] eqn:Hk; simpl; [|done].
    apply traverse_app in Hk as (k1 & k2 & -> & Hk1 & Hk2).
    assert (Hz : ∃ z, coerce_po (cell (restrict keep r) "po_number") = Ok z).
    { rewrite cell_restrict by done. unfold coerce_po.
      destruct (to_numeric_coerce (cell r "po_number")) as [[q| |z]|]; simpl; eauto.
      done. }
    destruct Hz as [z Hz].
    assert (Hk : traverse f ((restrict keep <$> before) ++ restrict keep r
                               :: (restrict keep <$> after))
                 = Ok (k1 ++ <["po_number" := VInt z]> (restrict keep r) :: k2)).
    { apply traverse_Ok, Forall2_app; [by apply traverse_Ok |].
      constructor; [| by apply traverse_Ok]. unfold f. by rewrite Hz. }
    rewrite Hk. simpl. rewrite filter_years_skip; [done |].
    intros Hin. apply Hout. apply (in_year_filter_cell r) in Hin; [done |].
    rewrite cell_insert_ne by done. by rewrite cell_restrict.
  - simpl. rewrite filter_years_skip; [done |].
    intros Hin. apply Hout. apply (in_year_filter_cell r) in Hin; [done |].
    by rewrite cell_restrict.
Qed.

End LoaderFacts.
End LoaderFacts.

(** *** The sample table through [load_data] *)

(** Of the four rows of the sample file, the one dated 2019 and the one
    whose date is not a date are dropped, without error; the unreadable
    [po_number] of the second row has become 0. *)
Example sample_loaded :
  (λ r, (cell r "po_number", cell r "date", cell r "timestamp")) <$> rows Sample.loaded
  = [(VInt 0, VStr "2020-03-05", VTime (18326 * Sample.ns_per_day));
     (VInt 4500, VStr "2021-06-15", VTime (18793 * Sample.ns_per_day))].
Proof. vm_compute. reflexivity. Qed.

(** The cast to int64 on cells beyond its range: the integers 2^63 and
    2^64 - 1 of a uint64 column wrap around; 2^64, which no integer column
    holds, and the text of 10^30 are floats and give the least int64. *)
Example sample_casts :
  Loader.coerce_po (H := Sample.pandas) <$>
    [VInt 4500; VInt (2 ^ 63); VInt (2 ^ 64 - 1); VInt (2 ^ 64);
     VStr "1000000000000000000000000000000"; VStr "n/a"]
  = [Ok 4500; Ok (- 2 ^ 63); Ok (-1); Ok (- 2 ^ 63); Ok (- 2 ^ 63); Ok 0].
Proof. vm_compute. reflexivity. Qed.

Lemma load_data_columns_witness :
  Loader.load_data (H := Sample.pandas) (Some Sample.dataset)
    = ([], Ok (Some Sample.loaded)) ∧
  columns Sample.loaded =
    ["po_number"; "pr_po_no"; "uid_number"; "activity"; "date"; "timestamp";
     "item"; "item_line"; "po_line"; "gr_number"; "gr_line"; "inv_line"; "wf_line"].
Proof.
  assert (Hload : Loader.load_data (H := Sample.pandas) (Some Sample.dataset)
                  = ([], Ok (Some Sample.loaded))) by (vm_compute; reflexivity).
  split; [exact Hload |].
  exact (proj1 (LoaderFacts.load_data_columns (H := Sample.pandas) _ _ _ Hload)).
Defined.

(** C4, as stated, fails: the table loaded from the sample file has a
    [gr_number] column, which the contract does not list. *)
Lemma load_data_columns_not_contract :
  ¬ (∀ file errors df,
       Loader.load_data (H := Sample.pandas) file = (errors, Ok (Some df)) →
       columns df = Loader.contract_columns).
Proof.
  intros Hclaim.
  assert (Hload : Loader.load_data (H := Sample.pandas) (Some Sample.dataset)
                  = ([], Ok (Some Sample.loaded))) by (vm_compute; reflexivity).
  apply Hclaim in Hload. vm_compute in Hload. discriminate Hload.
Qed.

Lemma unparseable_po_number_is_zero_witness :
  (Loader.to_numeric_coerce (H := Sample.pandas) (VStr "n/a") = None ∧
   Loader.coerce_po (H := Sample.pandas) (VStr "n/a") = Ok 0) ∧
  (Loader.load_data (H := Sample.pandas) (Some Sample.dataset_inf)
     = ([], Raise IntCastingNaNError) ∧
   ∃ r, r ∈ rows Sample.dataset_inf ∧
        Loader.to_numeric_coerce (H := Sample.pandas) (cell r "po_number") = Some Infinite).
Proof.
  pose proof (LoaderFacts.unparseable_po_number_is_zero (H := Sample.pandas))
    as (Hcell & _ & Hload).
  split; split.
  - reflexivity.
  - apply Hcell. reflexivity.
  - vm_compute. reflexivity.
  - apply (Hload Sample.dataset_inf []). vm_compute. reflexivity.
Defined.

Lemma year_filter_exact_witness :
  Loader.clean (H := Sample.pandas) Sample.dataset = Ok Sample.loaded ∧
  Forall2 (λ r r', cell r' "date" = cell r "date" ∧
             ∃ t, Sample.read_date (cell r "date") = Some t ∧
                  cell r' "timestamp" = VTime t)
    (filter (λ r, Loader.in_year_filter (H := Sample.pandas) r) (rows Sample.dataset))
    (rows Sample.loaded).
Proof.
  assert (Hclean : Loader.clean (H := Sample.pandas) Sample.dataset = Ok Sample.loaded)
    by (vm_compute; reflexivity).
  split; [exact Hclean |].
  exact (proj1 (proj2 (LoaderFacts.year_filter_exact (H := Sample.pandas) Sample.dataset))
           _ Hclean).
Defined.

(** C6, as stated, fails: the only row of this file has the date
    [ 2020-03-05], with a blank before the year.  pandas reads it as the
    5th of March 2020, an instant within the valid years, and the row is
    dropped all the same, because its text does not start with a year. *)
Lemma year_filter_not_on_timestamp :
  ¬ (∀ ds df r t,
       Loader.clean (H := Sample.pandas) ds = Ok df → r ∈ rows ds →
       to_datetime (Pandas := Sample.pandas) (cell r "date") = Some t →
       year (Pandas := Sample.pandas) t ∈ Loader.year_filter →
       ∃ r', r' ∈ rows df ∧ cell r' "date" = cell r "date").
Proof.
  intros Hclaim.
  destruct (Hclaim Sample.dataset_blank (mkDF Loader.cols_to_keep [])
              (Sample.raw_row (VInt 0) (VInt 4500) NaN (VStr "PO From SAP")
                 (VStr " 2020-03-05"))
              (18326 * Sample.ns_per_day))
    as (r' & Hr' & _).
  - vm_compute. reflexivity.
  - by left.
  - vm_compute. reflexivity.
  - in_list.
  - by apply elem_of_nil in Hr'.
Qed.

(** ** First occurrences *)

Section unique.
Context {A : Type} `{EqDecision A}.

Lemma elem_of_unique_from (seen l : list A) x :
  x ∈ unique_from seen l ↔ x ∈ l ∧ x ∉ seen.
Proof.
  revert seen. induction l as [|y l IH]; intros seen; simpl.
  - split; [by intros ?%elem_of_nil | by intros [?%elem_of_nil _]].
  - case_decide as Hy.
    + rewrite IH, elem_of_cons. split; [tauto |].
      intros [[->|?] ?]; tauto.
    + rewrite !elem_of_cons, IH, elem_of_cons. split.
      * intros [->|(? & ?)]; [tauto |]. split; [tauto |]. tauto.
      * intros [[->|?] Hx]; [tauto |].
        destruct (decide (x = y)) as [->|]; [tauto |]. right. tauto.
Qed.

Lemma NoDup_unique_from (seen l : list A) : NoDup (unique_from seen l).
Proof.
  revert seen. induction l as [|y l IH]; intros seen; simpl; [constructor |].
  case_decide; [apply IH |]. constructor; [|apply IH].
  rewrite elem_of_unique_from, elem_of_cons. tauto.
Qed.

Lemma elem_of_unique (l : list A) x : x ∈ unique l ↔ x ∈ l.
Proof.
  unfold unique. rewrite elem_of_unique_from. split; [tauto |].
  intros ?. split; [done |]. apply not_elem_of_nil.
Qed.

Lemma NoDup_unique (l : list A) : NoDup (unique l).
Proof. apply NoDup_unique_from. Qed.

(** [unique l] has as many elements as there are distinct values in [l] *)
Lemma length_unique (l : list A) : length (unique l) = length (remove_dups l).
Proof.
  apply Permutation_length, NoDup_Permutation.
  - apply NoDup_unique.
  - apply NoDup_remove_dups.
  - intros x. by rewrite elem_of_unique, elem_of_remove_dups.
Qed.

End unique.

(** ** The filters on [df_raw] *)

Module FiltersFacts.
Import Filters.
Section FiltersFacts.
Context `{Pandas}.

Lemma elem_of_po_of_invoice df_raw inv_list po :
  po ∈ po_of_invoice df_raw inv_list ↔
  ∃ r, r ∈ rows df_raw ∧ astype_str (cell r "uid_number") ∈ inv_list ∧
       cell r "po_number" = po.
Proof.
  unfold po_of_invoice, select_rows; simpl.
  rewrite elem_of_unique, list_elem_of_fmap. split.
  - intros (r & -> & [Hin Hr]%list_elem_of_filter).
    exists r. unfold isin in Hin. by rewrite bool_decide_spec in Hin.
  - intros (r & Hr & Hin & <-). exists r. split; [done |].
    apply list_elem_of_filter. split; [|done].
    unfold isin. by rewrite bool_decide_spec.
Qed.

Lemma invoice_mask_spec inv_list r :
  invoice_mask inv_list r ↔
  (cell r "uid_number" ≠ NaN → astype_str (cell r "uid_number") ∈ inv_list).
Proof.
  unfold invoice_mask, isin. rewrite orb_True, bool_decide_spec.
  destruct (cell r "uid_number"); simpl; split; try tauto;
    intros Hp; right; by apply Hp.
Qed.

Lemma rows_filter_invoice df_raw inv_list df :
  inv_list ≠ [] →
  rows (filter_invoice df_raw inv_list df) =
  filter (λ r, cell r "po_number" ∈ po_of_invoice df_raw inv_list ∧
               (cell r "uid_number" ≠ NaN →
                astype_str (cell r "uid_number") ∈ inv_list))
         (rows df).
Proof.
  intros Hne. unfold filter_invoice. destruct inv_list as [|i inv_list]; [done |].
  unfold select_rows; simpl. rewrite list_filter_filter.
  apply list_filter_iff. intros r.
  rewrite invoice_mask_spec. unfold isin. rewrite bool_decide_spec. tauto.
Qed.

(** C1.  With a non-empty invoice allow-list, the allow-list is resolved to
    the PO identifiers of the rows of [df_raw] whose invoice identifier,
    as text, is in the list; the filter keeps exactly the rows left by the
    date and PO filters whose PO identifier is in that resolved set and
    whose invoice identifier is missing or in the list; hence every row of
    the filtered table has an allow-listed invoice identifier when it has
    one, and a PO identifier in the resolved set. *)
Theorem invoice_filter_is_po_transitive df_raw date_range po_list inv_list :
  inv_list ≠ [] →
  (∀ po, po ∈ po_of_invoice df_raw inv_list ↔
         ∃ r, r ∈ rows df_raw ∧ astype_str (cell r "uid_number") ∈ inv_list ∧
              cell r "po_number" = po) ∧
  rows (df_filtered df_raw date_range po_list inv_list) =
    filter (λ r, cell r "po_number" ∈ po_of_invoice df_raw inv_list ∧
                 (cell r "uid_number" ≠ NaN →
                  astype_str (cell r "uid_number") ∈ inv_list))
           (rows (filter_po po_list (filter_date df_raw date_range))) ∧
  (∀ r, r ∈ rows (df_filtered df_raw date_range po_list inv_list) →
        (cell r "uid_number" ≠ NaN → astype_str (cell r "uid_number") ∈ inv_list) ∧
        cell r "po_number" ∈ po_of_invoice df_raw inv_list).
Proof.
  intros Hne. split; [|split].
  - apply elem_of_po_of_invoice.
  - unfold df_filtered. by apply rows_filter_invoice.
  - intros r. unfold df_filtered. rewrite rows_filter_invoice by done.
    rewrite list_elem_of_filter. tauto.
Qed.

(** Every kept row owes its PO to some row of the whole of [df_raw] that
    carries an allow-listed invoice. *)
Lemma kept_row_has_invoice_row df_raw date_range po_list inv_list r :
  inv_list ≠ [] →
  r ∈ rows (df_filtered df_raw date_range po_list inv_list) →
  ∃ r0, r0 ∈ rows df_raw ∧ astype_str (cell r0 "uid_number") ∈ inv_list ∧
        cell r0 "po_number" = cell r "po_number".
Proof.
  intros Hne. unfold df_filtered. rewrite rows_filter_invoice by done.
  rewrite list_elem_of_filter, elem_of_po_of_invoice. tauto.
Qed.

End FiltersFacts.
End FiltersFacts.

(** In the sample table the allow-list [5100] resolves to PO 4500; within
    the year 2020 the two exported orders of that PO are kept. *)
Example sample_filtered :
  Filters.po_of_invoice (H := Sample.pandas) Sample.df_raw ["5100"] = [VInt 4500] ∧
  (λ r, (cell r "po_number", cell r "uid_number", cell r "activity"))
    <$> rows (Filters.df_filtered (H := Sample.pandas)
                Sample.df_raw Sample.year_2020 [] ["5100"])
  = [(VInt 4500, NaN, VStr "PO From SAP"); (VInt 4500, NaN, VStr "PO From SAP")].
Proof. split; vm_compute; reflexivity. Qed.

Lemma invoice_filter_is_po_transitive_witness :
  ["5100"] ≠ [] ∧
  ∀ r, r ∈ rows (Filters.df_filtered (H := Sample.pandas)
                   Sample.df_raw Sample.year_2020 [] ["5100"]) →
       (cell r "uid_number" ≠ NaN →
        astype_str (H := Sample.pandas) (cell r "uid_number") ∈ ["5100"]) ∧
       cell r "po_number" ∈ Filters.po_of_invoice (H := Sample.pandas) Sample.df_raw ["5100"].
Proof.
  split; [done |].
  apply (FiltersFacts.invoice_filter_is_po_transitive (H := Sample.pandas)
           Sample.df_raw Sample.year_2020 [] ["5100"]).
  done.
Defined.

(** C10.  The PO identifiers an invoice allow-list resolves to are looked up
    in the whole of [df_raw]: a kept row has the PO of some row of [df_raw]
    carrying an allow-listed invoice, whatever the date range and the PO
    list.  In the sample table the order of PO 4500, dated 2020, is kept
    under the date range 2020 and the allow-list [5100] although every row
    of invoice 5100 lies outside that range: resolved over the rows left
    by the date filter, the allow-list would give no PO at all. *)
Theorem invoice_resolution_uses_whole_table :
  (∀ (H : Pandas) df_raw date_range po_list inv_list r,
     inv_list ≠ [] →
     r ∈ rows (Filters.df_filtered df_raw date_range po_list inv_list) →
     ∃ r0, r0 ∈ rows df_raw ∧ astype_str (cell r0 "uid_number") ∈ inv_list ∧
           cell r0 "po_number" = cell r "po_number") ∧
  (∃ r, r ∈ rows (Filters.df_filtered (H := Sample.pandas)
                    Sample.df_raw Sample.year_2020 [] ["5100"]) ∧
        Filters.in_date_range Sample.year_2020 r ∧
        (∀ r0, r0 ∈ rows Sample.df_raw →
               astype_str (H := Sample.pandas) (cell r0 "uid_number") ∈ ["5100"] →
               ¬ Filters.in_date_range Sample.year_2020 r0) ∧
        Filters.po_of_invoice (H := Sample.pandas)
          (Filters.filter_date Sample.df_raw Sample.year_2020) ["5100"] = []).
Proof.
  split.
  - intros H. apply FiltersFacts.kept_row_has_invoice_row.
  - exists (Sample.canonical_row 4500 NaN "PO From SAP" "2020-03-05"
              (18326 * Sample.ns_per_day)).
    split; [in_list |]. split; [vm_compute; exact I |]. split; [|vm_compute; reflexivity].
    refine (proj1 (Forall_forall
              (λ r0, astype_str (H := Sample.pandas) (cell r0 "uid_number") ∈ ["5100"] →
                     ¬ Filters.in_date_range Sample.year_2020 r0) _) _).
    apply (bool_decide_unpack _). vm_compute. exact I.
Qed.

Lemma invoice_resolution_uses_whole_table_witness :
  ["5100"] ≠ [] ∧
  ∀ r, r ∈ rows (Filters.df_filtered (H := Sample.pandas)
                   Sample.df_raw Sample.year_2020 [] ["5100"]) →
       ∃ r0, r0 ∈ rows Sample.df_raw ∧
             astype_str (H := Sample.pandas) (cell r0 "uid_number") ∈ ["5100"] ∧
             cell r0 "po_number" = cell r "po_number".
Proof.
  split; [done |]. intros r Hr.
  apply (proj1 invoice_resolution_uses_whole_table Sample.pandas
           Sample.df_raw Sample.year_2020 [] ["5100"] r); done.
Defined.

(** ** The activity selection *)

Module ActivitiesFacts.
Import Activities.

Lemma extend_groups acc groups :
  foldl (λ acc g, acc ++ group_map g) acc groups = acc ++ (groups ≫= group_map).
Proof.
  revert acc. induction groups as [|g groups IH]; intros acc; simpl.
  - by rewrite app_nil_r.
  - by rewrite IH, <-app_assoc.
Qed.

Lemma elem_of_final_activities selected exclude a :
  a ∈ final_activities selected exclude ↔ a ∈ selected ∧ a ∉ exclude.
Proof. unfold final_activities. rewrite list_elem_of_filter. tauto. Qed.

(** C3 (amended).  The final activities are the selected ones that are not
    excluded ([selected ∖ E]), in the order of the selection.  The selected
    set comes from one source at a time, by the activity mode: the whole
    vocabulary, or the union of the chosen groups, or the individually
    chosen activities. *)
Theorem final_activities_by_mode act_mode exclude_acts a :
  (a ∈ final_activities (selected_acts act_mode) exclude_acts ↔
   a ∈ selected_acts act_mode ∧ a ∉ exclude_acts) ∧
  final_activities (selected_acts act_mode) exclude_acts `sublist_of` selected_acts act_mode ∧
  match act_mode with
  | All =>
      selected_acts act_mode = pr_acts ++ po_acts ++ gr_acts ++ inv_acts ++ wf_acts
  | MainActivities groups =>
      a ∈ selected_acts act_mode ↔ ∃ g, g ∈ groups ∧ a ∈ group_map g
  | SubActivities acts => selected_acts act_mode = acts
  end.
Proof.
  split; [apply elem_of_final_activities |]. split; [apply sublist_filter |].
  destruct act_mode as [|groups|acts]; simpl; [done | | done].
  rewrite extend_groups. simpl. rewrite list_elem_of_bind.
  split; intros (g & ? & ?); by exists g.
Qed.

(** C3, as stated, fails: under the mode "All" no group and no individual
    activity is chosen, and every activity of the vocabulary is selected. *)
Lemma final_activities_not_union :
  ¬ (∀ act_mode exclude_acts a,
       a ∈ final_activities (selected_acts act_mode) exclude_acts ↔
       a ∈ selected_by_union act_mode ∧ a ∉ exclude_acts).
Proof.
  intros Hclaim. destruct (Hclaim All [] "PO From SAP") as [Hsel _].
  destruct Hsel as [Hin _]; [in_list |].
  vm_compute in Hin. by apply elem_of_nil in Hin.
Qed.

End ActivitiesFacts.

(** ** The table handed to pm4py *)

Module BuilderFacts.
Import Builder.

Lemma rename_key_lookup_ne (r : gmap string Value) label k :
  k ≠ label.1 → k ≠ label.2 → rename_key r label !! k = r !! k.
Proof.
  intros H1 H2. unfold rename_key. destruct (r !! label.1); [|done].
  by rewrite lookup_insert_ne, lookup_delete_ne.
Qed.

Lemma rename_lookup_ne mapping (r : gmap string Value) k :
  Forall (λ label, k ≠ label.1 ∧ k ≠ label.2) mapping →
  foldl rename_key r mapping !! k = r !! k.
Proof.
  intros HF. revert r. induction HF as [|label mapping [H1 H2] _ IH]; intros r; simpl.
  - done.
  - by rewrite IH, rename_key_lookup_ne.
Qed.

Lemma cell_rename_eid (r : gmap string Value) :
  cell (foldl rename_key r ocel_columns) "ocel:eid" = cell r "ocel:eid".
Proof.
  unfold cell. rewrite !lookup_total_alt, rename_lookup_ne; [done |].
  apply (bool_decide_unpack _). vm_compute. exact I.
Qed.

Lemma eid_inj : Inj (=) (=) eid.
Proof.
  intros i j [= Heq]. by apply (inj pretty).
Qed.

Lemma lookup_df_ocel_prep df i r :
  rows (df_ocel_prep df) !! i = Some r →
  ∃ r0, unique (rows df) !! i = Some r0 ∧ cell r "ocel:eid" = eid i.
Proof.
  unfold df_ocel_prep, rename, assign_eid, drop_duplicates; cbn [rows].
  rewrite list_lookup_fmap, list_lookup_imap.
  destruct (unique (rows df) !! i) as [r0|]; simpl; [|done].
  intros [= <-]. exists r0. split; [done |].
  etrans; [exact (cell_rename_eid _) |].
  unfold cell. by rewrite lookup_total_insert_eq.
Qed.

Lemma length_df_ocel_prep df :
  length (rows (df_ocel_prep df)) = length (unique (rows df)).
Proof.
  unfold df_ocel_prep, rename, assign_eid, drop_duplicates; simpl.
  by rewrite length_fmap, length_imap.
Qed.

Lemma eids_df_ocel_prep df :
  (λ r, cell r "ocel:eid") <$> rows (df_ocel_prep df)
  = eid <$> seq 0 (length (rows (df_ocel_prep df))).
Proof.
  apply list_eq. intros i. rewrite !list_lookup_fmap.
  remember (length (rows (df_ocel_prep df))) as n eqn:Hn.
  destruct (rows (df_ocel_prep df) !! i) as [r|] eqn:Hr.
  - destruct (lookup_df_ocel_prep _ _ _ Hr) as (_ & _ & Heid).
    apply lookup_lt_Some in Hr. rewrite <-Hn in Hr.
    rewrite (proj2 (lookup_seq 0 n i i)) by done.
    simpl. by rewrite Heid.
  - apply lookup_ge_None in Hr. rewrite <-Hn in Hr.
    destruct (seq 0 n !! i) as [j|] eqn:Hj; [|done].
    apply lookup_seq in Hj. lia.
Qed.

(** C5.  The table handed to pm4py is built by dropping the duplicates and
    only then numbering the rows.  It has one row per distinct row of
    [df_filtered]: the deduplicated rows are pairwise different and are the
    rows of [df_filtered], and their number is the number of distinct rows.
    The row at position [i] gets the event id ["e"] followed by [i], and no
    two rows get the same id. *)
Theorem one_event_per_distinct_row df_filtered :
  df_ocel_prep df_filtered = rename ocel_columns (assign_eid (drop_duplicates df_filtered)) ∧
  NoDup (rows (drop_duplicates df_filtered)) ∧
  (∀ r, r ∈ rows (drop_duplicates df_filtered) ↔ r ∈ rows df_filtered) ∧
  length (rows (df_ocel_prep df_filtered)) = length (remove_dups (rows df_filtered)) ∧
  (∀ i r, rows (df_ocel_prep df_filtered) !! i = Some r →
          cell r "ocel:eid" = VStr ("e" +:+ pretty i)) ∧
  NoDup ((λ r, cell r "ocel:eid") <$> rows (df_ocel_prep df_filtered)).
Proof.
  split; [done |]. split; [apply NoDup_unique |].
  split; [intros r; apply elem_of_unique |].
  split; [by rewrite length_df_ocel_prep, length_unique |].
  split.
  - intros i r Hr. by destruct (lookup_df_ocel_prep _ _ _ Hr) as (_ & _ & ->).
  - rewrite eids_df_ocel_prep. apply (NoDup_fmap_2 _ (Inj0 := eid_inj)), NoDup_seq.
Qed.

End BuilderFacts.

Lemma one_event_per_distinct_row_witness :
  length (rows (Builder.df_ocel_prep Sample.df_raw)) = 3%nat ∧
  ∀ r, rows (Builder.df_ocel_prep Sample.df_raw) !! 2%nat = Some r →
       cell r "ocel:eid" = VStr "e2".
Proof.
  destruct (BuilderFacts.one_event_per_distinct_row Sample.df_raw)
    as (_ & _ & _ & Hlen & Heid & _).
  split.
  - etrans; [exact Hlen |]. vm_compute. reflexivity.
  - intros r Hr. etrans; [exact (Heid 2%nat r Hr) |]. vm_compute. reflexivity.
Defined.

(** ** The script *)

Module AppFacts.
Import Pm4py App.

Section Script.
Context `{Pandas} {runtime : Runtime}.

(** The effects of a run are the calls of the script up to the first that
    raises. *)
Lemma run_prefix calls finish : (run calls finish).1 `prefix_of` calls.
Proof.
  induction calls as [|call calls IH]; simpl; [done |].
  destruct (raised call); [apply prefix_nil |].
  destruct (run calls finish) as [made r]; simpl in *. by apply prefix_cons.
Qed.

Lemma pipeline_prefix df_raw ui : pipeline df_raw ui `prefix_of` (script df_raw ui).1.
Proof. apply run_prefix. Qed.

(** C8.  When the data file is missing, [load_data] reports the error to
    the user and returns [None]; the run then ends normally with that
    message as its only effect.  An effect other than an error message
    (a table written, shown or handed to pm4py, a discovery, a diagram)
    occurs only in a run whose file was found and loaded. *)
Theorem missing_file_stops_the_run ui :
  Loader.load_data None = (["File 'df_event_sample1.csv' not found."], Ok None) ∧
  main None ui = ([St_error "File 'df_event_sample1.csv' not found."], Ok ()) ∧
  (∀ file eff, eff ∈ (main file ui).1 → (∀ msg, eff ≠ St_error msg) →
     ∃ dataset df_raw, file = Some dataset ∧ Loader.clean dataset = Ok df_raw ∧
                       (main file ui).1 = pipeline df_raw ui).
Proof.
  split; [done |]. split; [done |].
  intros [dataset|] eff; unfold main, Loader.load_data.
  - destruct (Loader.clean dataset) as [df_raw|e] eqn:Hclean; simpl.
    + intros _ _. by exists dataset, df_raw.
    + by intros ?%elem_of_nil.
  - simpl. intros ->%list_elem_of_singleton Hne.
    by destruct (Hne Loader.not_found_msg).
Qed.

End Script.
End AppFacts.

Lemma missing_file_stops_the_run_witness :
  App.Discover_ocdfg
    ∈ (App.main (H := Sample.pandas) (runtime := Sample.runtime)
         (Some Sample.dataset) Sample.ui).1 ∧
  ∃ dataset df_raw,
    Some Sample.dataset = Some dataset ∧
    Loader.clean (H := Sample.pandas) dataset = Ok df_raw ∧
    (App.main (H := Sample.pandas) (runtime := Sample.runtime)
       (Some Sample.dataset) Sample.ui).1
      = App.pipeline (H := Sample.pandas) (runtime := Sample.runtime) df_raw Sample.ui.
Proof.
  assert (Hin : App.Discover_ocdfg
                ∈ (App.main (H := Sample.pandas) (runtime := Sample.runtime)
                     (Some Sample.dataset) Sample.ui).1).
  { apply (list_elem_of_lookup_2 _ 6%nat). vm_compute. reflexivity. }
  split; [exact Hin |].
  apply (proj2 (proj2 (AppFacts.missing_file_stops_the_run (H := Sample.pandas)
                         (runtime := Sample.runtime) Sample.ui))
           (Some Sample.dataset) App.Discover_ocdfg Hin).
  intros msg. discriminate.
Defined.

(** ** The identifier lists of the sidebar *)

Module SidebarFacts.
Import Sidebar.

#[local] Abbreviation chars := String.list_ascii_of_string.

Lemma split_cons text : ∃ piece pieces, split text = piece :: pieces.
Proof.
  destruct text as [|c text]; simpl; [by eauto |].
  case_decide; [by eauto |]. destruct (split text); eauto.
Qed.

Lemma chars_split text x c :
  x ∈ split text → c ∈ chars x → c ≠ comma ∧ c ∈ chars text.
Proof.
  revert x. induction text as [|d text IH]; intros x; simpl.
  - intros ->%list_elem_of_singleton. by intros ?%elem_of_nil.
  - case_decide as Hd.
    + intros [->|Hx]%elem_of_cons; [by intros ?%elem_of_nil |].
      intros Hc. destruct (IH x Hx Hc). split; [done | by right].
    + destruct (split_cons text) as (piece & pieces & Hsplit). rewrite Hsplit in *.
      intros [->|Hx]%elem_of_cons; simpl.
      * intros [->|Hc]%elem_of_cons; [split; [done | by left] |].
        destruct (IH piece) as [? ?]; [by left | done |]. split; [done | by right].
      * intros Hc. destruct (IH x) as [? ?]; [by right | done |].
        split; [done | by right].
Qed.

Lemma chars_lstrip x c : c ∈ chars (lstrip x) → c ∈ chars x.
Proof.
  induction x as [|d x IH]; simpl; [done |].
  destruct (is_space d); [|done]. intros ?. right. auto.
Qed.

Lemma chars_rstrip x c : c ∈ chars (rstrip x) → c ∈ chars x.
Proof.
  induction x as [|d x IH]; simpl; [done |].
  destruct (rstrip x) as [|e kept] eqn:Hr.
  - destruct (is_space d); simpl; [by intros ?%elem_of_nil |].
    intros [->|?%elem_of_nil]%elem_of_cons; [by left | done].
  - simpl. intros [->|Hc]%elem_of_cons; [by left |]. right. by apply IH.
Qed.

Lemma lstrip_head x :
  lstrip x = EmptyString ∨ ∃ c x', lstrip x = String c x' ∧ is_space c = false.
Proof.
  induction x as [|d x IH]; simpl; [by left |].
  destruct (is_space d) eqn:Hd; [done |]. right. eauto.
Qed.

Lemma rstrip_head x :
  rstrip x = EmptyString ∨ ∃ c x' kept, x = String c x' ∧ rstrip x = String c kept.
Proof.
  destruct x as [|d x]; simpl; [by left |].
  destruct (rstrip x) as [|e kept].
  - destruct (is_space d); [by left |]. right. eauto.
  - right. eauto.
Qed.

Lemma lstrip_fixed c x : is_space c = false → lstrip (String c x) = String c x.
Proof. simpl. by intros ->. Qed.

Lemma lstrip_strip x : lstrip (strip x) = strip x.
Proof.
  unfold strip. destruct (lstrip_head x) as [->|(c & x' & Hx & Hc)]; [done |].
  rewrite Hx. destruct (rstrip_head (String c x')) as [->|(c' & x'' & kept & [= <- <-] & ->)];
    [done |].
  by apply lstrip_fixed.
Qed.

Lemma rstrip_idem x : rstrip (rstrip x) = rstrip x.
Proof.
  induction x as [|d x IH]; simpl; [done |].
  destruct (rstrip x) as [|e kept] eqn:Hr.
  - destruct (is_space d) eqn:Hd; simpl; [done | by rewrite Hd].
  - simpl in *. by rewrite IH.
Qed.

Lemma rstrip_strip x : rstrip (strip x) = strip x.
Proof. apply rstrip_idem. Qed.

Lemma strip_idem x : strip (strip x) = strip x.
Proof. unfold strip at 1. by rewrite lstrip_strip, rstrip_strip. Qed.

Lemma lstrip_empty x : lstrip x = EmptyString ↔ Forall (λ c, is_space c) (chars x).
Proof.
  induction x as [|d x IH]; simpl; [by split; [constructor |] |].
  rewrite Forall_cons. destruct (is_space d) eqn:Hd; simpl.
  - rewrite IH. tauto.
  - split; [done | by intros [[] _]].
Qed.

Lemma rstrip_empty x : rstrip x = EmptyString ↔ Forall (λ c, is_space c) (chars x).
Proof.
  induction x as [|d x IH]; simpl; [by split; [constructor |] |].
  rewrite Forall_cons, <-IH. destruct (rstrip x) as [|e kept].
  - destruct (is_space d); simpl; [tauto |]. split; [done | by intros [[] _]].
  - split; [done | by intros [_ ?]].
Qed.

Lemma strip_empty x : strip x = EmptyString ↔ Forall (λ c, is_space c) (chars x).
Proof.
  unfold strip. rewrite rstrip_empty, <-!lstrip_empty. split.
  - intros Hs. destruct (lstrip_head x) as [?|(c & x' & Hx & Hc)]; [done |].
    rewrite Hx in Hs. simpl in Hs. by rewrite Hc in Hs.
  - by intros ->.
Qed.

(** X1.  Every identifier read from a text input is a piece of the text
    between commas with the surrounding whitespace removed: it is not
    empty, has no whitespace at either end, holds no comma, and is made of
    characters of the text. *)
Theorem split_input_tokens text x :
  x ∈ split_input text →
  x ≠ EmptyString ∧ lstrip x = x ∧ rstrip x = x ∧
  (comma ∉ chars x) ∧ (∀ c, c ∈ chars x → c ∈ chars text).
Proof.
  unfold split_input.
  intros (piece & -> & Hpiece)%list_elem_of_fmap.
  apply list_elem_of_filter in Hpiece as [Hne Hpiece].
  split; [done |]. split; [apply lstrip_strip |]. split; [apply rstrip_strip |].
  assert (Hchars : ∀ c, c ∈ chars (strip piece) → c ≠ comma ∧ c ∈ chars text).
  { intros c Hc. apply (chars_split text piece); [done |].
    by apply chars_lstrip, chars_rstrip. }
  split; [intros Hc; by destruct (Hchars _ Hc) | intros c Hc; by destruct (Hchars _ Hc)].
Qed.

Lemma filter_nil_Forall {A} (P : A → Prop) `{∀ x, Decision (P x)} (l : list A) :
  filter P l = [] ↔ Forall (λ x, ¬ P x) l.
Proof.
  induction l as [|x l IH]; [by split; [constructor |] |].
  rewrite filter_cons, Forall_cons. case_decide; [|tauto].
  split; [done | by intros [? _]].
Qed.

Lemma blank_pieces text :
  Forall (λ x, Forall (λ c, is_space c) (chars x)) (split text) ↔
  Forall (λ c, c = comma ∨ is_space c) (chars text).
Proof.
  induction text as [|d text IH]; simpl.
  - split; intros _; repeat constructor.
  - rewrite Forall_cons, <-IH. case_decide as Hd.
    + rewrite Forall_cons. simpl. split; [intros [_ ?]; split; [by left | done] |].
      intros [_ ?]. split; [constructor | done].
    + destruct (split_cons text) as (piece & pieces & ->).
      rewrite !Forall_cons. simpl. rewrite Forall_cons. tauto.
Qed.

(** X2.  A text input yields no identifier exactly when it holds nothing
    but commas and whitespace; the list is then empty, which the script
    reads as "no filter", and so it is whenever the "Include all" box is
    ticked. *)
Theorem split_input_blank text :
  (split_input text = [] ↔ Forall (λ c, c = comma ∨ is_space c) (chars text)) ∧
  id_list true text = [].
Proof.
  split; [|done]. unfold split_input. rewrite <-blank_pieces. split.
  - intros Hnil%fmap_nil_inv. apply filter_nil_Forall in Hnil.
    eapply Forall_impl; [exact Hnil |]. intros x Hx; simpl in Hx.
    apply strip_empty. by destruct (decide (strip x = EmptyString)).
  - intros Hall. rewrite (proj2 (filter_nil_Forall _ _)); [done |].
    eapply Forall_impl; [exact Hall |]. intros x Hx Hne; simpl in *.
    by apply Hne, strip_empty.
Qed.

Lemma split_plain t : comma ∉ chars t → split t = [t].
Proof.
  induction t as [|d t IH]; simpl; [done |].
  intros Hc. rewrite decide_False by (intros ->; apply Hc; by left).
  rewrite IH; [done |]. intros ?. apply Hc. by right.
Qed.

Lemma split_comma t rest :
  comma ∉ chars t → split (t +:+ String comma rest) = t :: split rest.
Proof.
  induction t as [|d t IH]; simpl; [by rewrite ?decide_True |].
  intros Hc. rewrite decide_False by (intros ->; apply Hc; by left).
  rewrite IH; [done |]. intros ?. apply Hc. by right.
Qed.

Lemma split_input_space c rest :
  is_space c → c ≠ comma → split_input (String c rest) = split_input rest.
Proof.
  intros Hc Hne. unfold split_input. simpl. rewrite decide_False by done.
  destruct (split_cons rest) as (piece & pieces & ->).
  assert (Hstrip : strip (String c piece) = strip piece).
  { unfold strip. simpl. by destruct (is_space c). }
  rewrite !filter_cons, Hstrip. by case_decide; simpl; rewrite ?Hstrip.
Qed.

Lemma split_input_comma t rest :
  t ≠ EmptyString → strip t = t → comma ∉ chars t →
  split_input (t +:+ String comma rest) = t :: split_input rest.
Proof.
  intros Hne Hstrip Hc. unfold split_input. rewrite split_comma by done.
  rewrite filter_cons, decide_True by (by rewrite Hstrip). simpl. by rewrite Hstrip.
Qed.

(** X3.  Reading back identifiers that were typed separated by [,] or by
    [, ] returns them, in order, when each is non-empty, holds no comma and
    has no whitespace at either end. *)
Theorem split_input_concat (sep : string) (ids : list string) :
  sep = "," ∨ sep = ", " →
  Forall (λ t, t ≠ EmptyString ∧ strip t = t ∧ comma ∉ chars t) ids →
  split_input (String.concat sep ids) = ids.
Proof.
  intros Hsep. induction 1 as [|t ids (Hne & Hstrip & Hc) Hids IH]; [done |].
  destruct ids as [|t' ids].
  - simpl. unfold split_input. rewrite split_plain by done.
    rewrite filter_cons, decide_True by (by rewrite Hstrip). simpl. by rewrite Hstrip.
  - change (String.concat sep (t :: t' :: ids))
      with (t +:+ sep +:+ String.concat sep (t' :: ids)).
    destruct Hsep as [-> | ->].
    + change ("," +:+ ?r) with (String comma r).
      by rewrite split_input_comma, IH.
    + change (", " +:+ ?r) with (String comma (String (Ascii.ascii_of_N 32) r)).
      rewrite split_input_comma by done.
      rewrite split_input_space by done. by rewrite IH.
Qed.

End SidebarFacts.

Lemma split_input_tokens_witness :
  "4501" ∈ Sidebar.split_input " 4500 ,4501 , " ∧
  Sidebar.lstrip "4501" = "4501" ∧ Sidebar.rstrip "4501" = "4501".
Proof.
  assert (Hin : "4501" ∈ Sidebar.split_input " 4500 ,4501 , ") by in_list.
  split; [exact Hin |].
  destruct (SidebarFacts.split_input_tokens _ _ Hin) as (_ & Hl & Hr & _).
  by split.
Defined.

Lemma split_input_concat_witness :
  Sidebar.split_input (String.concat ", " ["4500"; "PO 7"; "4501"]) = ["4500"; "PO 7"; "4501"].
Proof.
  apply SidebarFacts.split_input_concat; [by right |].
  repeat constructor; try done; apply (bool_decide_unpack _); vm_compute; exact I.
Defined.

(** ** More on [load_data] *)

Module LoaderMore.
Import Loader LoaderFacts.
Section LoaderMore.
Context `{Pandas}.

Lemma traverse_total {A B} (f : A → result B) l :
  Forall (λ a, ∃ b, f a = Ok b) l → ∃ l', traverse f l = Ok l'.
Proof.
  induction 1 as [|a l [b Hb] _ [l' Hl']]; simpl; [by eauto |].
  rewrite Hb. simpl. rewrite Hl'. simpl. eauto.
Qed.

Lemma Forall2_elem_of_l {A B} (P : A → B → Prop) l k x :
  Forall2 P l k → x ∈ l → ∃ y, y ∈ k ∧ P x y.
Proof.
  intros HF [i Hi]%list_elem_of_lookup.
  destruct (Forall2_lookup_l _ _ _ _ _ HF Hi) as (y & Hy & HP).
  exists y. split; [by eapply list_elem_of_lookup_2 | done].
Qed.

Lemma elem_of_drop_unnamed ds c :
  c ∈ columns (drop_unnamed ds) ↔ String.prefix "Unnamed" c = false ∧ c ∈ columns ds.
Proof.
  unfold drop_unnamed; simpl. rewrite list_elem_of_filter.
  destruct (String.prefix "Unnamed" c); simpl; split; intros [? ?]; done.
Qed.

Lemma kept_is_named c : c ∈ cols_to_keep → String.prefix "Unnamed" c = false.
Proof.
  revert c. apply Forall_forall. apply (bool_decide_unpack _). vm_compute. exact I.
Qed.

Lemma kept_is_not_date_str c : c ∈ cols_to_keep → c ≠ "date_str".
Proof. intros Hc ->. revert Hc. apply (bool_decide_unpack _). vm_compute. exact I. Qed.

Lemma filter_years_columns df df' c :
  filter_years df = Ok df' → c ∈ columns df' ↔ c ∈ columns df ∨ c = "date_str".
Proof.
  unfold filter_years. case_bool_decide; [|done]. intros [= <-]; simpl.
  case_bool_decide as Hd.
  - split; [tauto |]. by intros [?| ->].
  - rewrite elem_of_app, list_elem_of_singleton. tauto.
Qed.

Lemma parse_timestamps_columns df df' c :
  parse_timestamps df = Ok df' → c ∈ columns df' ↔ c ∈ columns df ∨ c = "timestamp".
Proof.
  unfold parse_timestamps.
  destruct (traverse _ (rows df)) as [rs|e]; simpl; [|done].
  destruct (same_zone _); [|done]. intros [= <-]; simpl.
  case_bool_decide as Hd.
  - split; [tauto |]. by intros [?| ->].
  - rewrite elem_of_app, list_elem_of_singleton. tauto.
Qed.

(** The columns of the table that reaches [df[cols_to_keep]] *)
Lemma columns_before_keep ds df1 df2 df3 c :
  coerce_po_number (drop_unnamed ds) = Ok df1 → filter_years df1 = Ok df2 →
  parse_timestamps df2 = Ok df3 →
  c ∈ columns df3 ↔
  (String.prefix "Unnamed" c = false ∧ c ∈ columns ds) ∨ c = "date_str" ∨ c = "timestamp".
Proof.
  intros [Hcols _]%coerce_po_number_Ok H2 H3.
  rewrite (parse_timestamps_columns _ _ _ H3), (filter_years_columns _ _ _ H2).
  rewrite Hcols, elem_of_drop_unnamed. tauto.
Qed.

Lemma keep_columns_succeeds df :
  (∃ df', keep_columns df = Ok df') ↔ ∀ c, c ∈ cols_to_keep → c ∈ columns df.
Proof.
  unfold keep_columns, missing.
  destruct (filter _ cols_to_keep) as [|m ms] eqn:Hm.
  - split; [|by eauto]. intros _ c Hc.
    apply SidebarFacts.filter_nil_Forall in Hm.
    rewrite Forall_forall in Hm. specialize (Hm c Hc). simpl in Hm.
    by destruct (decide (c ∈ columns df)).
  - split; [by intros [? [=]] |]. intros Hall.
    assert (m ∈ filter (λ c, c ∉ columns df) cols_to_keep) as Hin
      by (rewrite Hm; by left).
    apply list_elem_of_filter in Hin as [Hnot Hin]. by destruct Hnot; apply Hall.
Qed.

Lemma coerce_po_finite v :
  to_numeric_coerce v ≠ Some Infinite ↔ ∃ z, coerce_po v = Ok z.
Proof.
  unfold coerce_po. destruct (to_numeric_coerce v) as [[q| |z]|]; simpl.
  - split; [by eauto | done].
  - split; [done | by intros [? [=]]].
  - split; [by eauto | done].
  - split; [by eauto | done].
Qed.

Lemma keep_columns_KeyError df e :
  keep_columns df = Raise e →
  ∃ m, e = KeyError m ∧ m ≠ [] ∧ ∀ c, c ∈ m → c ∈ cols_to_keep ∧ c ∉ columns df.
Proof.
  unfold keep_columns, missing.
  destruct (filter _ cols_to_keep) as [|m ms] eqn:Hm; [done |].
  intros [= <-]. exists (m :: ms). split; [done |]. split; [done |].
  intros c Hc. rewrite <-Hm in Hc. apply list_elem_of_filter in Hc. tauto.
Qed.

Lemma required_columns ds df1 df2 df3 df :
  coerce_po_number (drop_unnamed ds) = Ok df1 → filter_years df1 = Ok df2 →
  parse_timestamps df2 = Ok df3 → keep_columns df3 = Ok df →
  ∀ c, c ∈ cols_to_keep → c ≠ "timestamp" → c ∈ columns (drop_unnamed ds).
Proof.
  intros H1 H2 H3 H4 c Hc Hts.
  assert (Hc3 : c ∈ columns df3) by (apply keep_columns_succeeds; eauto).
  apply (columns_before_keep _ _ _ _ _ H1 H2 H3) in Hc3 as [?|[->| ->]].
  - by apply elem_of_drop_unnamed.
  - by destruct (kept_is_not_date_str _ Hc).
  - done.
Qed.

(** X4.  [load_data] returns a table exactly when the file has every
    column of [cols_to_keep] but [timestamp] (which it computes), no
    [po_number] of the file reads as a non-finite number, the date of every
    row that passes the year filter parses, and the dates of those rows
    are in one zone.  In particular a date that does not parse is fatal
    only in a row that passes the year filter. *)
Theorem load_succeeds_iff ds :
  (∃ df, clean ds = Ok df) ↔
  (∀ c, c ∈ cols_to_keep → c ≠ "timestamp" → c ∈ columns ds) ∧
  (∀ r, r ∈ rows ds → to_numeric_coerce (cell r "po_number") ≠ Some Infinite) ∧
  (∀ r, r ∈ rows ds → in_year_filter r → is_Some (to_datetime (cell r "date"))) ∧
  (∀ r r', r ∈ rows ds → r' ∈ rows ds → in_year_filter r → in_year_filter r' →
           utc_offset (cell r "date") = utc_offset (cell r' "date")).
Proof.
  split.
  - intros [df (df1 & df2 & df3 & H1 & H2 & H3 & H4)%clean_Ok].
    pose proof (required_columns _ _ _ _ _ H1 H2 H3 H4) as Hreq.
    pose proof (rows_at_parse _ _ _ H1 H2) as H02.
    split; [|split; [|split]].
    + intros c Hc Hts. by apply elem_of_drop_unnamed, Hreq.
    + intros r Hr.
      assert (Hpo : "po_number" ∈ columns (drop_unnamed ds)) by (apply Hreq; [in_list | done]).
      destruct (Forall2_elem_of_l _ _ _ _ (drop_unnamed_rows ds _ Hpo) Hr)
        as (r0 & Hr0 & Hcell).
      apply coerce_po_number_Ok in H1 as [_ H1].
      destruct (Forall2_elem_of_l _ _ _ _ H1 Hr0) as (r1 & _ & _ & Hz).
      destruct (Hz Hpo) as (z & Hco & _). rewrite Hcell in Hco.
      apply coerce_po_finite. eauto.
    + intros r Hr Hkept.
      assert (Hin : r ∈ filter (λ r, in_year_filter r) (rows ds))
        by (by apply list_elem_of_filter).
      destruct (Forall2_elem_of_l _ _ _ _ H02 Hin) as (r2 & Hr2 & Hcell).
      apply parse_timestamps_Ok in H3 as [H3 _].
      destruct (Forall2_elem_of_l _ _ _ _ H3 Hr2) as (r3 & _ & t & Ht & _).
      rewrite Hcell in Ht. eauto.
    + intros r r' Hr Hr' Hkept Hkept'.
      assert (Hin : r ∈ filter (λ r, in_year_filter r) (rows ds))
        by (by apply list_elem_of_filter).
      assert (Hin' : r' ∈ filter (λ r, in_year_filter r) (rows ds))
        by (by apply list_elem_of_filter).
      destruct (Forall2_elem_of_l _ _ _ _ H02 Hin) as (r2 & Hr2 & Hcell).
      destruct (Forall2_elem_of_l _ _ _ _ H02 Hin') as (r2' & Hr2' & Hcell').
      apply parse_timestamps_Ok in H3 as [_ Hzone].
      rewrite <-Hcell, <-Hcell'. by apply Hzone.
  - intros (Hcols & Hpo & Hdates & Hzones).
    assert (Hnamed : ∀ c, c ∈ cols_to_keep → c ≠ "timestamp" →
                          c ∈ columns (drop_unnamed ds)).
    { intros c Hc Hts. apply elem_of_drop_unnamed. split; [by apply kept_is_named | auto]. }
    assert (Hpocol : "po_number" ∈ columns (drop_unnamed ds))
      by (apply Hnamed; [in_list | done]).
    assert (∃ df1, coerce_po_number (drop_unnamed ds) = Ok df1) as [df1 H1].
    { unfold coerce_po_number. rewrite bool_decide_eq_true_2 by done.
      destruct (traverse_total
                  (λ r, z ← coerce_po (cell r "po_number");
                        Ok (<["po_number" := VInt z]> r)) (rows (drop_unnamed ds)))
        as [rs ->]; [|simpl; eauto].
      apply Forall_forall. intros r0 Hr0.
      destruct (Forall2_elem_of_r _ _ _ _ (drop_unnamed_rows ds _ Hpocol) Hr0)
        as (r & Hr & Hcell).
      destruct (proj1 (coerce_po_finite _) (Hpo r Hr)) as [z Hz].
      rewrite Hcell, Hz. simpl. eauto. }
    pose proof (coerce_po_number_Ok _ _ H1) as [Hcols1 _].
    assert (∃ df2, filter_years df1 = Ok df2) as [df2 H2].
    { unfold filter_years. rewrite bool_decide_eq_true_2; [by eauto |].
      rewrite Hcols1. apply Hnamed; [in_list | done]. }
    pose proof (rows_at_parse _ _ _ H1 H2) as H02.
    assert (∃ df3, parse_timestamps df2 = Ok df3) as [df3 H3].
    { unfold parse_timestamps.
      destruct (traverse_total
                  (λ r, match to_datetime (cell r "date") with
                        | Some t => Ok (<["timestamp" := VTime t]> r)
                        | None => Raise ValueError
                        end) (rows df2)) as [rs ->].
      - apply Forall_forall. intros r2 Hr2.
        destruct (Forall2_elem_of_filter _ _ _ _ _ H02 Hr2) as (r & Hr & Hkept & Hcell).
        destruct (Hdates r Hr Hkept) as [t Ht]. rewrite Hcell, Ht. eauto.
      - simpl. rewrite (proj2 (same_zone_rows (rows df2))); [by eauto |].
        intros r2 r2' Hr2 Hr2'.
        destruct (Forall2_elem_of_filter _ _ _ _ _ H02 Hr2) as (r & Hr & Hkept & ->).
        destruct (Forall2_elem_of_filter _ _ _ _ _ H02 Hr2') as (r' & Hr' & Hkept' & ->).
        by apply Hzones. }
    assert (∃ df, keep_columns df3 = Ok df) as [df H4].
    { apply keep_columns_succeeds. intros c Hc.
      apply (columns_before_keep _ _ _ _ _ H1 H2 H3).
      destruct (decide (c = "timestamp")) as [->|Hts]; [tauto |].
      left. by apply elem_of_drop_unnamed, Hnamed. }
    exists df. unfold clean. rewrite H1. simpl. rewrite H2. simpl. by rewrite H3.
Qed.

(** X5.  Every failure of [load_data] has its cause in the file: a
    [KeyError] names at least one column, each of them a column of
    [cols_to_keep] other than [timestamp] that the file lacks; a
    [ValueError] comes from rows that pass the year filter, one whose date
    does not parse or two whose dates are in different zones; the integer
    cast fails on a [po_number] that reads as a non-finite number; and
    there is no other failure. *)
Theorem load_error_cause ds e :
  clean ds = Raise e →
  match e with
  | KeyError m =>
      m ≠ [] ∧ ∀ c, c ∈ m → c ∈ cols_to_keep ∧ c ≠ "timestamp" ∧ c ∉ columns ds
  | ValueError =>
      (∃ r, r ∈ rows ds ∧ in_year_filter r ∧ to_datetime (cell r "date") = None) ∨
      (∃ r r', r ∈ rows ds ∧ r' ∈ rows ds ∧ in_year_filter r ∧ in_year_filter r' ∧
               utc_offset (cell r "date") ≠ utc_offset (cell r' "date"))
  | IntCastingNaNError =>
      ∃ r, r ∈ rows ds ∧ to_numeric_coerce (cell r "po_number") = Some Infinite
  | TypeError | OtherError _ => False
  end.
Proof.
  intros Hclean.
  pose proof Hclean
    as [H1|(df1 & H1 & [H2|(df2 & H2 & [H3|(df3 & H3 & H4)])])]%clean_Raise.
  - pose proof H1 as Hguard. unfold coerce_po_number in Hguard.
    case_bool_decide as Hpo; [|done]. clear Hguard.
    apply coerce_po_number_Raise in H1 as (-> & r1 & Hr1 & Hinf).
    destruct (Forall2_elem_of_r _ _ _ _ (drop_unnamed_rows ds _ Hpo) Hr1)
      as (r & Hr & Hcell).
    exists r. split; [done |]. by rewrite <-Hcell.
  - pose proof H2 as Hguard. unfold filter_years in Hguard.
    case_bool_decide as Hdate; [done |]. clear Hguard.
    apply filter_years_Raise in H2 as ->. split; [done |].
    intros c ->%list_elem_of_singleton. split; [in_list |]. split; [done |].
    intros Hc. apply Hdate. apply coerce_po_number_Ok in H1 as [-> _].
    by apply elem_of_drop_unnamed.
  - apply parse_timestamps_Raise in H3 as [-> _]. by apply clean_ValueError.
  - apply keep_columns_KeyError in H4 as (m & -> & Hne & Hm).
    split; [done |]. intros c [Hc Hnot]%Hm. split; [done |].
    assert (Hcols : ∀ c', c' ∈ columns df3 ↔
              (String.prefix "Unnamed" c' = false ∧ c' ∈ columns ds)
              ∨ c' = "date_str" ∨ c' = "timestamp")
      by (intros c'; by apply (columns_before_keep _ _ _ _ _ H1 H2 H3)).
    split.
    + intros ->. apply Hnot, Hcols. tauto.
    + intros Hds. apply Hnot, Hcols. left. split; [by apply kept_is_named | done].
Qed.

Lemma restrict_absent cols (r : gmap string Value) c :
  c ∉ cols → restrict cols r !! c = None.
Proof.
  intros Hc. unfold restrict. apply map_lookup_filter_None.
  destruct (r !! c) as [v|] eqn:Hr; [right | by left].
  intros v' _ ?. by apply Hc.
Qed.

(** X6.  Each row of the loaded table comes from one row of the file that
    passes the year filter, in the same order: its [po_number] is the
    int64 the coercion gives (an integer cell within the int64 range is
    unchanged), its [timestamp] is the instant parsed from its date, every
    other column of [cols_to_keep] holds the value of the file, and it has
    no other column. *)
Theorem loaded_rows_pass_through ds df :
  clean ds = Ok df →
  Forall2 (λ r r',
      (∃ z, coerce_po (cell r "po_number") = Ok z ∧ cell r' "po_number" = VInt z ∧
            - 2 ^ 63 ≤ z < 2 ^ 63) ∧
      (∃ t, to_datetime (cell r "date") = Some t ∧ cell r' "timestamp" = VTime t) ∧
      (∀ c, c ∈ cols_to_keep → c ≠ "po_number" → c ≠ "timestamp" →
            cell r' c = cell r c) ∧
      (∀ c, c ∉ cols_to_keep → r' !! c = None))
    (filter (λ r, in_year_filter r) (rows ds)) (rows df)
  ∧ (∀ z, - 2 ^ 63 ≤ z < 2 ^ 63 → coerce_po (VInt z) = Ok z).
Proof.
  intros (df1 & df2 & df3 & H1 & H2 & H3 & H4)%clean_Ok.
  split.
  2: { intros z Hz. unfold coerce_po, to_numeric_coerce.
       rewrite bool_decide_eq_true_2 by (unfold int64_min; lia). simpl. f_equal.
       apply wrap64_id. unfold int64_min, int64_max. lia. }
  pose proof (required_columns _ _ _ _ _ H1 H2 H3 H4) as Hreq.
  assert (Hpo : "po_number" ∈ columns (drop_unnamed ds)) by (apply Hreq; [in_list | done]).
  assert (Hdate : "date" ∈ columns (drop_unnamed ds)) by (apply Hreq; [in_list | done]).
  assert (H01 : Forall2 (λ r r1 : gmap string Value,
                    (∃ z, coerce_po (cell r "po_number") = Ok z ∧
                          cell r1 "po_number" = VInt z) ∧
                    (∀ c, c ∈ columns (drop_unnamed ds) → c ≠ "po_number" →
                          cell r1 c = cell r c))
                  (rows ds) (rows df1)).
  { apply coerce_po_number_Ok in H1 as [_ H1].
    assert (H0 : Forall2 (λ r r0 : gmap string Value,
                            r0 = restrict (columns (drop_unnamed ds)) r)
                   (rows ds) (rows (drop_unnamed ds))).
    { unfold drop_unnamed; simpl.
      by apply Forall2_fmap_r, Forall_Forall2_diag, Forall_forall. }
    eapply Forall2_trans; [| exact H0 | exact H1].
    simpl. intros r r0 r1 -> [Hne Hz]. destruct (Hz Hpo) as (z & Hco & Hcell).
    split.
    - exists z. by rewrite cell_restrict in Hco.
    - intros c Hc Hcpo. by rewrite Hne, cell_restrict. }
  apply filter_years_Ok in H2 as [_ H2].
  apply parse_timestamps_Ok in H3 as [H3 _]. apply keep_columns_Ok in H4 as [_ H4].
  assert (Hmask : ∀ r r1 : gmap string Value,
            (∃ z, coerce_po (cell r "po_number") = Ok z ∧ cell r1 "po_number" = VInt z) ∧
            (∀ c, c ∈ columns (drop_unnamed ds) → c ≠ "po_number" → cell r1 c = cell r c) →
            (in_year_filter r ↔ in_year_filter r1)).
  { intros r r1 [_ Hsame]. unfold in_year_filter.
    by rewrite (date_str_cell r r1) by (by apply Hsame). }
  pose proof (Forall2_filter _ _ _ _ _ Hmask H01) as H01'.
  assert (H02 : Forall2 (λ r r2 : gmap string Value,
                    (∃ z, coerce_po (cell r "po_number") = Ok z ∧
                          cell r2 "po_number" = VInt z) ∧
                    (∀ c, c ∈ columns (drop_unnamed ds) → c ≠ "po_number" →
                          c ≠ "date_str" → cell r2 c = cell r c))
                  (filter (λ r, in_year_filter r) (rows ds)) (rows df2)).
  { eapply Forall2_trans; [| exact H01' | exact H2].
    simpl. intros r r1 r2 [(z & Hco & Hcell) Hsame] ->. split.
    - exists z. split; [done |]. by rewrite cell_insert_ne.
    - intros c Hc Hcpo Hcds. rewrite cell_insert_ne by done. by apply Hsame. }
  rewrite H4. apply Forall2_fmap_r.
  eapply Forall2_trans; [| exact H02 | exact H3].
  simpl. intros r r2 r3 [(z & Hco & Hcell) Hsame] (t & Ht & ->).
  rewrite Hsame in Ht by done.
  split; [|split; [|split]].
  - exists z. split; [done |]. split.
    + rewrite cell_restrict by in_list. by rewrite cell_insert_ne.
    + apply coerce_po_range in Hco. unfold int64_min, int64_max in Hco. lia.
  - exists t. split; [done |]. rewrite cell_restrict by in_list. by rewrite cell_insert_eq.
  - intros c Hc Hcpo Hcts. rewrite cell_restrict by done.
    rewrite cell_insert_ne by done.
    apply Hsame; [by apply Hreq | done | by apply kept_is_not_date_str].
  - intros c Hc. by apply restrict_absent.
Qed.

End LoaderMore.
End LoaderMore.

(** Each date of [Sample.dataset_zones] parses, and the load stops on the
    two of them together. *)
Lemma load_error_cause_witness :
  Loader.clean (H := Sample.pandas) Sample.dataset_zones = Raise ValueError ∧
  Forall (λ r, is_Some (Sample.read_date (cell r "date"))) (rows Sample.dataset_zones) ∧
  ((∃ r, r ∈ rows Sample.dataset_zones ∧ Loader.in_year_filter (H := Sample.pandas) r ∧
         Sample.read_date (cell r "date") = None) ∨
   (∃ r r', r ∈ rows Sample.dataset_zones ∧ r' ∈ rows Sample.dataset_zones ∧
            Loader.in_year_filter (H := Sample.pandas) r ∧
            Loader.in_year_filter (H := Sample.pandas) r' ∧
            Sample.read_offset (cell r "date") ≠ Sample.read_offset (cell r' "date"))).
Proof.
  assert (Hraise : Loader.clean (H := Sample.pandas) Sample.dataset_zones
                   = Raise ValueError) by (vm_compute; reflexivity).
  split; [exact Hraise |]. split.
  - repeat (apply Forall_cons; split; [vm_compute; eauto |]). apply Forall_nil_2.
  - exact (LoaderMore.load_error_cause (H := Sample.pandas) _ _ Hraise).
Defined.

Lemma loaded_rows_pass_through_witness :
  Loader.clean (H := Sample.pandas) Sample.dataset = Ok Sample.loaded ∧
  ∀ z, - 2 ^ 63 ≤ z < 2 ^ 63 → Loader.coerce_po (H := Sample.pandas) (VInt z) = Ok z.
Proof.
  assert (Hclean : Loader.clean (H := Sample.pandas) Sample.dataset = Ok Sample.loaded)
    by (vm_compute; reflexivity).
  split; [exact Hclean |].
  exact (proj2 (LoaderMore.loaded_rows_pass_through (H := Sample.pandas) _ _ Hclean)).
Defined.

(** ** More on the filters *)

Module FiltersMore.
Import Filters FiltersFacts.
Section FiltersMore.
Context `{Pandas}.

Lemma in_date_range_spec date_range r :
  in_date_range date_range r ↔
  ∃ t, cell r "timestamp" = VTime t ∧ date_range.1 ≤ t ≤ date_range.2.
Proof.
  unfold in_date_range. destruct (cell r "timestamp") as [| | |t]; simpl;
    try (split; [done | by intros (? & [=] & _)]).
  rewrite andb_True, !bool_decide_spec. split.
  - intros [? ?]. by exists t.
  - by intros (? & [= <-] & ? & ?).
Qed.

Lemma elem_of_filter_po po_list df r :
  r ∈ rows (filter_po po_list df) ↔
  r ∈ rows df ∧ (po_list = [] ∨ astype_str (cell r "po_number") ∈ po_list).
Proof.
  destruct po_list as [|p po_list]; simpl.
  - split; [by intros ?; split; [|left] | by intros [? _]].
  - rewrite list_elem_of_filter. unfold isin. rewrite bool_decide_spec.
    split; [intros [? ?]; split; [done | by right] | by intros [? [[=]|?]]].
Qed.

Lemma elem_of_filter_invoice df_raw inv_list df r :
  r ∈ rows (filter_invoice df_raw inv_list df) ↔
  r ∈ rows df ∧
  (inv_list = [] ∨
   (cell r "po_number" ∈ po_of_invoice df_raw inv_list ∧
    (cell r "uid_number" ≠ NaN → astype_str (cell r "uid_number") ∈ inv_list))).
Proof.
  destruct (decide (inv_list = [])) as [->|Hne].
  - simpl. split; [by intros ?; split; [|left] | by intros [? _]].
  - rewrite rows_filter_invoice by done. rewrite list_elem_of_filter.
    split; [intros [? ?]; split; [done | by right] | by intros [? [?|?]]].
Qed.

(** A row of [df_filtered], told by the three filters *)
Lemma elem_of_df_filtered df_raw date_range po_list inv_list r :
  r ∈ rows (df_filtered df_raw date_range po_list inv_list) ↔
  r ∈ rows df_raw ∧ in_date_range date_range r ∧
  (po_list = [] ∨ astype_str (cell r "po_number") ∈ po_list) ∧
  (inv_list = [] ∨
   (cell r "po_number" ∈ po_of_invoice df_raw inv_list ∧
    (cell r "uid_number" ≠ NaN → astype_str (cell r "uid_number") ∈ inv_list))).
Proof.
  unfold df_filtered. rewrite elem_of_filter_invoice, elem_of_filter_po.
  unfold filter_date, select_rows; simpl. rewrite list_elem_of_filter. tauto.
Qed.

Lemma sublist_filter_po po_list df : rows (filter_po po_list df) `sublist_of` rows df.
Proof. destruct po_list; simpl; [done | apply sublist_filter]. Qed.

Lemma sublist_filter_invoice df_raw inv_list df :
  rows (filter_invoice df_raw inv_list df) `sublist_of` rows df.
Proof.
  destruct inv_list; simpl; [done |].
  etrans; apply sublist_filter.
Qed.

Lemma columns_df_filtered df_raw date_range po_list inv_list :
  columns (df_filtered df_raw date_range po_list inv_list) = columns df_raw.
Proof. unfold df_filtered. by destruct po_list, inv_list. Qed.

(** X7.  The filtered table is a part of [df_raw]: same columns, rows taken
    from [df_raw] in their order, none added or changed.  Every kept row
    has an instant within the date range, bounds included, and, when a PO
    list is given, a PO number whose decimal text is in the list; a range
    whose end precedes its start keeps nothing.  Without invoice list the
    kept rows are exactly those. *)
Theorem df_filtered_subtable df_raw date_range po_list inv_list :
  columns (df_filtered df_raw date_range po_list inv_list) = columns df_raw ∧
  rows (df_filtered df_raw date_range po_list inv_list) `sublist_of` rows df_raw ∧
  (∀ r, r ∈ rows (df_filtered df_raw date_range po_list inv_list) →
        (∃ t, cell r "timestamp" = VTime t ∧ date_range.1 ≤ t ≤ date_range.2) ∧
        (po_list ≠ [] → astype_str (cell r "po_number") ∈ po_list)) ∧
  (date_range.2 < date_range.1 →
   rows (df_filtered df_raw date_range po_list inv_list) = []) ∧
  (∀ r, r ∈ rows (df_filtered df_raw date_range po_list []) ↔
        r ∈ rows df_raw ∧
        (∃ t, cell r "timestamp" = VTime t ∧ date_range.1 ≤ t ≤ date_range.2) ∧
        (po_list = [] ∨ astype_str (cell r "po_number") ∈ po_list)).
Proof.
  split; [apply columns_df_filtered |]. split; [|split; [|split]].
  - unfold df_filtered. etrans; [apply sublist_filter_invoice |].
    etrans; [apply sublist_filter_po |]. apply sublist_filter.
  - intros r (_ & Hrange & Hpo & _)%elem_of_df_filtered.
    split; [by apply in_date_range_spec |]. by intros ?; destruct Hpo.
  - intros Hempty.
    destruct (rows (df_filtered df_raw date_range po_list inv_list)) as [|r rs] eqn:Hrows;
      [done |].
    assert (Hr : r ∈ rows (df_filtered df_raw date_range po_list inv_list))
      by (rewrite Hrows; by left).
    apply elem_of_df_filtered in Hr as (_ & (t & _ & ?)%in_date_range_spec & _). lia.
  - intros r. rewrite elem_of_df_filtered, in_date_range_spec. split.
    + intros (? & ? & ? & _). by auto.
    + intros (? & ? & ?). split; [done |]. split; [done |]. split; [done | by left].
Qed.

(** X8.  Widening a filter never loses a row: a row kept under a date
    range, a PO list and an invoice list is still kept under a range that
    contains the first, a PO list that is empty or contains the first,
    non-empty one, and an invoice list that is empty or contains the
    first, non-empty one. *)
Theorem wider_filters_keep_more df_raw date_range date_range'
    po_list po_list' inv_list inv_list' r :
  date_range'.1 ≤ date_range.1 → date_range.2 ≤ date_range'.2 →
  po_list' = [] ∨ (po_list ≠ [] ∧ po_list ⊆ po_list') →
  inv_list' = [] ∨ (inv_list ≠ [] ∧ inv_list ⊆ inv_list') →
  r ∈ rows (df_filtered df_raw date_range po_list inv_list) →
  r ∈ rows (df_filtered df_raw date_range' po_list' inv_list').
Proof.
  intros Hlo Hhi Hpo Hinv. rewrite !elem_of_df_filtered, !in_date_range_spec.
  intros (Hr & (t & Ht & ? & ?) & Hp & Hi). split; [done |].
  split; [exists t; split; [done | lia] |]. split.
  - destruct Hpo as [?|[Hne Hsub]]; [by left |]. right.
    destruct Hp as [?|?]; [done | by apply Hsub].
  - destruct Hinv as [?|[Hne Hsub]]; [by left |]. right.
    destruct Hi as [?|[Hres Hmask]]; [done |]. split.
    + apply elem_of_po_of_invoice in Hres as (r0 & ? & ? & ?).
      apply elem_of_po_of_invoice. exists r0. split; [done |]. split; [by apply Hsub | done].
    + intros ?. by apply Hsub, Hmask.
Qed.

End FiltersMore.
End FiltersMore.

(** ** The date slider *)

Module SliderFacts.
Import Loader LoaderFacts Filters Sidebar.
Section SliderFacts.
Context `{Pandas}.

Lemma loaded_timestamps ds df r :
  clean ds = Ok df → r ∈ rows df → ∃ t, cell r "timestamp" = VTime t.
Proof.
  intros (df1 & df2 & df3 & _ & _ & H3 & H4)%clean_Ok.
  apply parse_timestamps_Ok in H3 as [H3 _]. apply keep_columns_Ok in H4 as [_ ->].
  intros (r3 & -> & Hr3)%list_elem_of_fmap.
  destruct (Forall2_elem_of_r _ _ _ _ H3 Hr3) as (r2 & _ & t & _ & ->).
  exists t. rewrite cell_restrict by in_list. apply cell_insert_eq.
Qed.

Lemma elem_of_timestamps df r t :
  r ∈ rows df → cell r "timestamp" = VTime t → t ∈ timestamps df.
Proof.
  intros Hr Ht. unfold timestamps. apply list_elem_of_omap.
  exists r. split; [done |]. by rewrite Ht.
Qed.

Lemma min_le t ts x : x ∈ t :: ts → foldr Z.min t ts ≤ x.
Proof.
  induction ts as [|y ts IH]; simpl.
  - intros ->%list_elem_of_singleton. lia.
  - rewrite !elem_of_cons. intros [->|[->|Hx]].
    + assert (foldr Z.min t ts ≤ t) by (apply IH; by left). lia.
    + lia.
    + assert (foldr Z.min t ts ≤ x) by (apply IH; by right). lia.
Qed.

Lemma max_ge t ts x : x ∈ t :: ts → x ≤ foldr Z.max t ts.
Proof.
  induction ts as [|y ts IH]; simpl.
  - intros ->%list_elem_of_singleton. lia.
  - rewrite !elem_of_cons. intros [->|[->|Hx]].
    + assert (t ≤ foldr Z.max t ts) by (apply IH; by left). lia.
    + lia.
    + assert (x ≤ foldr Z.max t ts) by (apply IH; by right). lia.
Qed.

Lemma filter_all {A} (P : A → Prop) `{∀ x, Decision (P x)} (l : list A) :
  Forall P l → filter P l = l.
Proof.
  induction 1 as [|x l Hx _ IH]; [done |].
  by rewrite filter_cons, decide_True, IH.
Qed.

(** X9.  On a loaded table the slider starts at the earliest and the latest
    instant, cut down to whole microseconds.  With that range the date
    filter drops no row whose instant is a whole number of microseconds,
    and every instant lies less than a microsecond after the end of the
    range; so the whole table is kept when its instants carry no
    nanoseconds.  There is no such range only when the table has no row. *)
Theorem default_range_keeps ds df_raw :
  clean ds = Ok df_raw →
  match default_range df_raw with
  | None => rows df_raw = []
  | Some (lo, hi) =>
      (∀ r, r ∈ rows df_raw →
            ∃ t, cell r "timestamp" = VTime t ∧ lo ≤ t < hi + 1000 ∧
                 (t `mod` 1000 = 0 → in_date_range (lo, hi) r)) ∧
      ((∀ r t, r ∈ rows df_raw → cell r "timestamp" = VTime t → t `mod` 1000 = 0) →
       filter_date df_raw (lo, hi) = df_raw)
  end.
Proof.
  intros Hclean. unfold default_range, min_ts, max_ts.
  destruct (timestamps df_raw) as [|t0 ts] eqn:Hts; simpl.
  - destruct (rows df_raw) as [|r rs] eqn:Hrows; [done |].
    assert (Hr : r ∈ rows df_raw) by (rewrite Hrows; by left).
    destruct (loaded_timestamps _ _ _ Hclean Hr) as [t Ht].
    pose proof (elem_of_timestamps _ _ _ Hr Ht) as Hin.
    rewrite Hts in Hin. by apply elem_of_nil in Hin.
  - assert (Hrow : ∀ r, r ∈ rows df_raw →
              ∃ t, cell r "timestamp" = VTime t ∧
                   to_pydatetime (foldr Z.min t0 ts) ≤ t
                   < to_pydatetime (foldr Z.max t0 ts) + 1000 ∧
                   (t `mod` 1000 = 0 →
                    in_date_range (to_pydatetime (foldr Z.min t0 ts),
                                   to_pydatetime (foldr Z.max t0 ts)) r)).
    { intros r Hr. destruct (loaded_timestamps _ _ _ Hclean Hr) as [t Ht].
      pose proof (elem_of_timestamps _ _ _ Hr Ht) as Hin. rewrite Hts in Hin.
      pose proof (min_le _ _ _ Hin). pose proof (max_ge _ _ _ Hin).
      pose proof (Z.mul_div_le (foldr Z.min t0 ts) 1000 ltac:(lia)).
      pose proof (Z.mul_succ_div_gt (foldr Z.max t0 ts) 1000 ltac:(lia)).
      exists t. split; [done |]. unfold to_pydatetime. split; [lia |].
      intros Hmod. unfold in_date_range. rewrite Ht. simpl.
      rewrite andb_True, !bool_decide_spec. split; [lia |].
      rewrite (Z.div_mod t 1000), Hmod, Z.add_0_r by lia.
      apply Z.mul_le_mono_nonneg_l; [lia |]. apply Z.div_le_mono; lia. }
    split; [exact Hrow |]. intros Hwhole.
    destruct df_raw as [cols rs]. unfold filter_date, select_rows; simpl in *.
    f_equal. apply filter_all, Forall_forall. intros r Hr.
    destruct (Hrow r Hr) as (t & Ht & _ & Hin). apply Hin. by eapply Hwhole.
Qed.

End SliderFacts.
End SliderFacts.

Lemma default_range_keeps_witness :
  Loader.clean (H := Sample.pandas) Sample.dataset = Ok Sample.loaded ∧
  Filters.filter_date Sample.loaded (18326 * Sample.ns_per_day, 18793 * Sample.ns_per_day)
  = Sample.loaded.
Proof.
  assert (Hclean : Loader.clean (H := Sample.pandas) Sample.dataset = Ok Sample.loaded)
    by (vm_compute; reflexivity).
  split; [exact Hclean |].
  pose proof (SliderFacts.default_range_keeps (H := Sample.pandas) _ _ Hclean) as Hd.
  assert (Hdr : Sidebar.default_range Sample.loaded
                = Some (18326 * Sample.ns_per_day, 18793 * Sample.ns_per_day))
    by (vm_compute; reflexivity).
  rewrite Hdr in Hd. apply Hd. intros r t Hr Ht.
  assert (Hall : Forall (λ r, match cell r "timestamp" with
                              | VTime t => bool_decide (t `mod` 1000 = 0)
                              | _ => true
                              end = true) (rows Sample.loaded))
    by (apply (bool_decide_unpack _); vm_compute; exact I).
  rewrite Forall_forall in Hall. specialize (Hall r Hr). rewrite Ht in Hall.
  by apply bool_decide_eq_true in Hall.
Defined.

(** ** More on the activity selection *)

Module ActivitiesMore.
Import Activities ActivitiesFacts.

#[local] Instance Group_eq_dec : EqDecision Group.
Proof. solve_decision. Defined.

Lemma groups_disjoint g g' a : a ∈ group_map g → a ∈ group_map g' → g = g'.
Proof.
  destruct g, g'; try done; simpl; intros Ha Hb; exfalso; revert a Ha Hb;
    refine (proj1 (Forall_forall (λ a, a ∈ _ → False) _) _);
    apply (bool_decide_unpack _); vm_compute; exact I.
Qed.

Lemma NoDup_group_map g : NoDup (group_map g).
Proof. destruct g; apply (bool_decide_unpack _); vm_compute; exact I. Qed.

Lemma group_in_vocabulary g a : a ∈ group_map g → a ∈ all_available_acts.
Proof.
  unfold all_available_acts. rewrite !elem_of_app. destruct g; simpl; tauto.
Qed.

Lemma NoDup_groups groups : NoDup groups → NoDup (groups ≫= group_map).
Proof.
  induction 1 as [|g groups Hg _ IH]; [constructor |].
  simpl. apply NoDup_app. split; [apply NoDup_group_map |]. split; [|done].
  intros a Ha (g' & Ha' & Hg')%list_elem_of_bind.
  by rewrite (groups_disjoint _ _ _ Ha Ha') in Hg.
Qed.

(** X10.  The exclusion behaves as a set difference on the list: excluding
    nothing returns the selection, excluding the whole selection returns
    nothing, and excluding in two steps is excluding both lists at once. *)
Theorem final_activities_exclusion selected exclude1 exclude2 :
  final_activities selected [] = selected ∧
  final_activities selected selected = [] ∧
  final_activities (final_activities selected exclude1) exclude2
  = final_activities selected (exclude1 ++ exclude2).
Proof.
  unfold final_activities. split; [|split].
  - apply SliderFacts.filter_all, Forall_forall. intros a _. apply not_elem_of_nil.
  - apply SidebarFacts.filter_nil_Forall, Forall_forall. by intros a Ha Hna.
  - rewrite list_filter_filter. apply list_filter_iff. intros a.
    rewrite elem_of_app. tauto.
Qed.

(** X11.  When the widgets return what they can return (distinct groups, or
    distinct activities of the vocabulary), the list handed to the activity
    filter holds only activities of the vocabulary, each once. *)
Theorem final_activities_distinct act_mode exclude_acts :
  match act_mode with
  | All => True
  | MainActivities groups => NoDup groups
  | SubActivities acts => NoDup acts ∧ acts ⊆ all_available_acts
  end →
  NoDup (final_activities (selected_acts act_mode) exclude_acts) ∧
  final_activities (selected_acts act_mode) exclude_acts ⊆ all_available_acts.
Proof.
  intros Hmode.
  assert (NoDup (selected_acts act_mode) ∧ selected_acts act_mode ⊆ all_available_acts)
    as [Hnd Hsub].
  { destruct act_mode as [|groups|acts]; simpl.
    - split; [|done]. apply (NoDup_groups [PR; PO; GR; Invoicing; Workflow]).
      apply (bool_decide_unpack _). vm_compute. exact I.
    - rewrite extend_groups. simpl. split; [by apply NoDup_groups |].
      intros a (g & Ha & _)%list_elem_of_bind. by eapply group_in_vocabulary.
    - done. }
  split.
  - unfold final_activities. by apply NoDup_filter.
  - intros a [Ha _]%elem_of_final_activities. by apply Hsub.
Qed.

End ActivitiesMore.

Lemma final_activities_distinct_witness :
  NoDup [Activities.PO; Activities.GR] ∧
  NoDup (Activities.final_activities
           (Activities.selected_acts (Activities.MainActivities [Activities.PO; Activities.GR]))
           ["GR (Return)"]).
Proof.
  assert (Hnd : NoDup [Activities.PO; Activities.GR])
    by (apply NoDup_cons; split;
          [by intros ?%list_elem_of_singleton | apply NoDup_singleton]).
  split; [exact Hnd |].
  exact (proj1 (ActivitiesMore.final_activities_distinct
                  (Activities.MainActivities [Activities.PO; Activities.GR]) _ Hnd)).
Defined.

(** ** More on the table handed to pm4py *)

Module BuilderMore.
Import Builder BuilderFacts.

Lemma rename_key_old (r : gmap string Value) old new :
  old ≠ new → rename_key r (old, new) !! old = None.
Proof.
  intros Hne. unfold rename_key; simpl. destruct (r !! old) as [v|] eqn:Hr; [|done].
  by rewrite lookup_insert_ne, lookup_delete_eq.
Qed.

Lemma rename_key_new (r : gmap string Value) old new :
  rename_key r (old, new) !! new
  = match r !! old with Some v => Some v | None => r !! new end.
Proof.
  unfold rename_key; simpl. destruct (r !! old) as [v|]; [|done].
  by rewrite lookup_insert_eq.
Qed.

(** A renaming whose old and new labels are all different *)
Lemma rename_lookup mapping (r : gmap string Value) old new :
  NoDup (mapping.*1 ++ mapping.*2) → (old, new) ∈ mapping →
  foldl rename_key r mapping !! old = None ∧
  foldl rename_key r mapping !! new
  = match r !! old with Some v => Some v | None => r !! new end.
Proof.
  revert r.
  induction mapping as [|[o n] mapping IH]; intros r Hnd Hin;
    [by apply elem_of_nil in Hin |].
  simpl in *. apply NoDup_cons in Hnd as [Ho Hnd].
  assert (Hnd' : NoDup (mapping.*1 ++ mapping.*2)).
  { apply NoDup_app in Hnd as (H1 & H2 & H3). apply NoDup_cons in H3 as [_ H3].
    apply NoDup_app. split; [done |]. split; [|done].
    intros x Hx1 Hx2. apply (H2 x Hx1). by right. }
  assert (Hn : (n ∉ mapping.*1) ∧ (n ∉ mapping.*2) ∧ (o ∉ mapping.*1) ∧
               (o ∉ mapping.*2) ∧ o ≠ n).
  { apply NoDup_app in Hnd as (H1 & H2 & H3). apply NoDup_cons in H3 as [H3 _].
    rewrite elem_of_app, elem_of_cons in Ho.
    split; [intros Hx; apply (H2 n Hx); by left |]. split; [done |]. tauto. }
  destruct Hn as (Hn1 & Hn2 & Ho1 & Ho2 & Hon).
  apply elem_of_cons in Hin as [[= -> ->]|Hin].
  - assert (Hfresh : ∀ k, k ∉ mapping.*1 → k ∉ mapping.*2 →
              Forall (λ label, k ≠ label.1 ∧ k ≠ label.2) mapping).
    { intros k Hk1 Hk2. apply Forall_forall. intros [o' n'] Hl. simpl. split.
      - intros ->. apply Hk1. apply list_elem_of_fmap. by exists (o', n').
      - intros ->. apply Hk2. apply list_elem_of_fmap. by exists (o', n'). }
    rewrite !rename_lookup_ne by (by apply Hfresh).
    split; [by apply rename_key_old | apply rename_key_new].
  - destruct (IH (rename_key r (o, n)) Hnd' Hin) as [Hold Hnew].
    split; [done |]. rewrite Hnew.
    assert (old ∈ mapping.*1) by (apply list_elem_of_fmap; by exists (old, new)).
    assert (new ∈ mapping.*2) by (apply list_elem_of_fmap; by exists (old, new)).
    assert (old ≠ o ∧ old ≠ n ∧ new ≠ o ∧ new ≠ n) as (? & ? & ? & ?).
    { apply NoDup_app in Hnd as (H1 & H2 & H3). apply NoDup_cons in H3 as [H3 _].
      rewrite elem_of_app in Ho. repeat split; intros ->; tauto || (by eapply H2). }
    by rewrite !(rename_key_lookup_ne r (o, n)) by done.
Qed.

(** X13.  Building the table for pm4py loses no cell: the row at position
    [i] comes from the deduplicated row at position [i]; each renamed
    column holds, under its OCEL name, the value it had under its old name,
    and the old name is gone; every other column but the event id is
    unchanged. *)
Theorem df_ocel_prep_cells df i r' :
  rows (df_ocel_prep df) !! i = Some r' →
  ∃ r, rows (drop_duplicates df) !! i = Some r ∧
    (∀ old new, (old, new) ∈ ocel_columns →
       r' !! old = None ∧
       r' !! new = match r !! old with Some v => Some v | None => r !! new end) ∧
    (∀ c, c ≠ "ocel:eid" → c ∉ ocel_columns.*1 → c ∉ ocel_columns.*2 →
          r' !! c = r !! c).
Proof.
  unfold df_ocel_prep, rename, assign_eid, drop_duplicates; cbn [rows].
  rewrite list_lookup_fmap, list_lookup_imap.
  destruct (unique (rows df) !! i) as [r|]; [|done].
  cbn [fmap option_fmap option_map]. intros [= <-]. exists r. split; [done |].
  assert (Hdistinct : NoDup (ocel_columns.*1 ++ ocel_columns.*2))
    by (apply (bool_decide_unpack _); vm_compute; exact I).
  assert (Hnot_eid : Forall (λ label : string * string,
                               label.1 ≠ "ocel:eid" ∧ label.2 ≠ "ocel:eid") ocel_columns)
    by (apply (bool_decide_unpack _); vm_compute; exact I).
  split.
  - intros old new Hin.
    destruct (proj1 (Forall_forall _ _) Hnot_eid _ Hin) as [? ?]; simpl in *.
    destruct (rename_lookup ocel_columns (<["ocel:eid" := eid i]> r) old new Hdistinct Hin)
      as [Hold Hnew].
    split; [exact Hold |]. etrans; [exact Hnew |].
    by rewrite !lookup_insert_ne.
  - intros c Hc Hold Hnew.
    etrans; [apply (rename_lookup_ne ocel_columns (<["ocel:eid" := eid i]> r) c) |
             by rewrite lookup_insert_ne].
    apply Forall_forall. intros [o n] Hl. simpl. split.
    + intros ->. apply Hold. apply list_elem_of_fmap. by exists (o, n).
    + intros ->. apply Hnew. apply list_elem_of_fmap. by exists (o, n).
Qed.

End BuilderMore.

Lemma df_ocel_prep_cells_witness :
  let df := mkDF ["activity"; "item"]
              [list_to_map [("activity", VStr "PO From SAP"); ("item", VStr "i1")]] in
  let r' := default ∅ (rows (Builder.df_ocel_prep df) !! 0%nat) in
  rows (Builder.df_ocel_prep df) !! 0%nat = Some r' ∧
  r' !! "activity" = None ∧ r' !! "ocel:activity" = Some (VStr "PO From SAP").
Proof.
  intros df r'.
  assert (Hrow : rows (Builder.df_ocel_prep df) !! 0%nat = Some r')
    by (vm_compute; reflexivity).
  split; [exact Hrow |].
  destruct (BuilderMore.df_ocel_prep_cells _ _ _ Hrow) as (r & Hr & Hrenamed & _).
  destruct (Hrenamed "activity" "ocel:activity" ltac:(in_list)) as [Hold Hnew].
  split; [exact Hold |]. rewrite Hnew.
  assert (r = list_to_map [("activity", VStr "PO From SAP"); ("item", VStr "i1")]) as ->
    by (apply (inj Some); rewrite <-Hr; vm_compute; reflexivity).
  vm_compute. reflexivity.
Defined.

(** ** Files in the trace of a run *)

Module TraceFacts.
Import App Trace AppFacts.
Section TraceFacts.
Context `{Pandas} {runtime : Runtime}.

(** In the script every call that reads a file comes after the call that
    writes it. *)
Lemma script_read_after_write df_raw ui i eff file :
  (script df_raw ui).1 !! i = Some eff → reads eff = Some file →
  ∃ j w, (j < i)%nat ∧ (script df_raw ui).1 !! j = Some w ∧ writes w = Some file.
Proof.
  unfold script, pm_display. intros Heff Hreads.
  destruct (filter_type ui) as [selected|choice]; simpl in *.
  - do 14 (destruct i as [|i];
           [simpl in Heff; injection Heff as <-;
            first [ discriminate Hreads
                  | injection Hreads as <-;
                    first [ by eexists 2%nat, _; split; [lia | split; [reflexivity |]]
                          | by eexists 7%nat, _; split; [lia | split; [reflexivity |]]
                          | by eexists 8%nat, _; split; [lia | split; [reflexivity |]] ] ]
           |]).
    discriminate Heff.
  - do 2 (destruct i as [|i];
          [simpl in Heff; injection Heff as <-; discriminate Hreads |]).
    discriminate Heff.
Qed.

(** X14.  In a run of the pipeline, whatever the inputs and wherever the
    run stops, every file that is read, shown or offered for download was
    written earlier in the same run: the OCEL table before pm4py reads it,
    each diagram before it is shown and before its download button. *)
Theorem read_after_write df_raw ui i eff file :
  pipeline df_raw ui !! i = Some eff → reads eff = Some file →
  ∃ j w, (j < i)%nat ∧ pipeline df_raw ui !! j = Some w ∧ writes w = Some file.
Proof.
  intros Heff Hreads.
  pose proof (pipeline_prefix df_raw ui) as Hprefix.
  pose proof (prefix_lookup_Some _ _ _ _ Heff Hprefix) as Hcall.
  destruct (script_read_after_write _ _ _ _ _ Hcall Hreads) as (j & w & Hj & Hw & Hfile).
  exists j, w. split; [done |]. split; [|done].
  destruct (lookup_lt_is_Some_2 (pipeline df_raw ui) j) as [w' Hw'].
  { apply lookup_lt_Some in Heff. lia. }
  pose proof (prefix_lookup_Some _ _ _ _ Hw' Hprefix) as Hw''. congruence.
Qed.

End TraceFacts.
End TraceFacts.

Lemma read_after_write_witness :
  App.pipeline (H := Sample.pandas) (runtime := Sample.runtime) Sample.loaded Sample.ui
    !! 11%nat = Some (App.St_image "diag_time.png") ∧
  ∃ j w, (j < 11)%nat ∧
         App.pipeline (H := Sample.pandas) (runtime := Sample.runtime)
           Sample.loaded Sample.ui !! j = Some w ∧
         Trace.writes w = Some "diag_time.png".
Proof.
  assert (Hshown : App.pipeline (H := Sample.pandas) (runtime := Sample.runtime)
                     Sample.loaded Sample.ui !! 11%nat
                   = Some (App.St_image "diag_time.png")) by (vm_compute; reflexivity).
  split; [exact Hshown |].
  exact (TraceFacts.read_after_write (H := Sample.pandas) (runtime := Sample.runtime)
           _ _ _ _ _ Hshown eq_refl).
Defined.

(** ** The first steps of [load_data] *)

Module LoaderSteps.
Import Loader LoaderFacts.
Section LoaderSteps.
Context `{Pandas}.

Lemma restrict_restrict cols (r : gmap string Value) :
  restrict cols (restrict cols r) = restrict cols r.
Proof.
  unfold restrict. rewrite map_filter_filter. apply map_filter_ext.
  intros c v _. simpl. tauto.
Qed.

Lemma lookup_restrict_dec cols (r : gmap string Value) c :
  restrict cols r !! c = if bool_decide (c ∈ cols) then r !! c else None.
Proof.
  case_bool_decide; [by apply lookup_restrict | by apply LoaderMore.restrict_absent].
Qed.

(** X15.  Dropping the unnamed columns removes the columns whose name
    starts with [Unnamed] and nothing else: the other columns stay in
    their order, every row keeps its cells in those columns and loses the
    rest, and doing it again changes nothing. *)
Theorem drop_unnamed_only ds :
  columns (drop_unnamed ds) `sublist_of` columns ds ∧
  (∀ c, c ∈ columns (drop_unnamed ds) ↔
        c ∈ columns ds ∧ String.prefix "Unnamed" c = false) ∧
  Forall2 (λ r r', ∀ c, r' !! c = if bool_decide (c ∈ columns (drop_unnamed ds))
                                  then r !! c else None)
          (rows ds) (rows (drop_unnamed ds)) ∧
  drop_unnamed (drop_unnamed ds) = drop_unnamed ds.
Proof.
  split; [apply sublist_filter |]. split; [|split].
  - intros c. rewrite LoaderMore.elem_of_drop_unnamed. tauto.
  - unfold drop_unnamed; simpl. apply Forall2_fmap_r, Forall_Forall2_diag, Forall_forall.
    intros r _ c. simpl. apply lookup_restrict_dec.
  - unfold drop_unnamed; simpl.
    assert (Hcols : filter (λ c, negb (String.prefix "Unnamed" c))
                      (filter (λ c, negb (String.prefix "Unnamed" c)) (columns ds))
                    = filter (λ c, negb (String.prefix "Unnamed" c)) (columns ds)).
    { rewrite list_filter_filter. apply list_filter_iff. intros c. tauto. }
    rewrite Hcols. f_equal. rewrite <-list_fmap_compose.
    apply list_fmap_ext. intros i r _. simpl. apply restrict_restrict.
Qed.

Lemma year_has_four_digits y : y ∈ year_filter → String.length (pretty y) = 4%nat.
Proof.
  revert y. apply Forall_forall. apply (bool_decide_unpack _). vm_compute. exact I.
Qed.

(** X16.  The year filter looks at the text of the date and not at the
    parsed instant: a row passes exactly when that text starts with one of
    the six years, so that a row without date never passes. *)
Theorem year_filter_on_text r :
  (in_year_filter r ↔
   ∃ y, y ∈ year_filter ∧ String.prefix (pretty y) (astype_str (cell r "date")) = true) ∧
  (cell r "date" = NaN → ¬ in_year_filter r).
Proof.
  split.
  - unfold in_year_filter, isin, year_strs, date_str.
    rewrite bool_decide_spec, list_elem_of_fmap. split.
    + intros (y & Hy & Hin). exists y. split; [done |].
      apply String.prefix_correct. by rewrite (year_has_four_digits y Hin).
    + intros (y & Hin & Hy). exists y. split; [|done].
      apply String.prefix_correct in Hy. by rewrite (year_has_four_digits y Hin) in Hy.
  - intros Hnan. unfold in_year_filter, date_str. rewrite Hnan. vm_compute. tauto.
Qed.

End LoaderSteps.
End LoaderSteps.

Lemma wider_filters_keep_more_witness :
  let r := Sample.canonical_row 4500 NaN "PO From SAP" "2020-03-05"
             (18326 * Sample.ns_per_day) in
  let all_years := (0, 20454 * Sample.ns_per_day) in
  all_years.1 ≤ Sample.year_2020.1 ∧ Sample.year_2020.2 ≤ all_years.2 ∧
  (["4500"] ≠ [] ∧ ["4500"] ⊆ ["4500"; "4501"]) ∧
  r ∈ rows (Filters.df_filtered (H := Sample.pandas) Sample.df_raw Sample.year_2020
              ["4500"] ["5100"]) ∧
  r ∈ rows (Filters.df_filtered (H := Sample.pandas) Sample.df_raw all_years
              ["4500"; "4501"] []).
Proof.
  intros r all_years.
  assert (Hlo : all_years.1 ≤ Sample.year_2020.1) by (vm_compute; discriminate).
  assert (Hhi : Sample.year_2020.2 ≤ all_years.2) by (vm_compute; discriminate).
  assert (Hpo : ["4500"] ≠ [] ∧ ["4500"] ⊆ ["4500"; "4501"]).
  { split; [discriminate |]. intros x Hx. apply list_elem_of_singleton in Hx as ->. by left. }
  assert (Hfirst : rows (Filters.df_filtered (H := Sample.pandas) Sample.df_raw
                            Sample.year_2020 ["4500"] ["5100"]) !! 0%nat = Some r)
    by (vm_compute; reflexivity).
  assert (Hr := list_elem_of_lookup_2 _ _ _ Hfirst).
  split; [exact Hlo |]. split; [exact Hhi |]. split; [exact Hpo |]. split; [exact Hr |].
  exact (FiltersMore.wider_filters_keep_more (H := Sample.pandas) _ _ _ _ _ _ _ _
           Hlo Hhi (or_intror Hpo) (or_introl eq_refl) Hr).
Defined.

(** ** How a run ends *)

Module AppMore.
Import App AppFacts.
Section AppMore.
Context `{Pandas} {runtime : Runtime}.

Lemma run_Ok calls finish :
  (run calls finish).2 = Ok () ↔
  finish = Ok () ∧ ∀ call, call ∈ calls → raised call = None.
Proof.
  induction calls as [|call calls IH]; simpl.
  - split; [|by intros [? _]]. intros ->. split; [done |]. by intros ? ?%elem_of_nil.
  - destruct (raised call) as [e|] eqn:Hcall; simpl.
    + split; [done |]. intros [_ Hall].
      specialize (Hall call ltac:(by left)). congruence.
    + destruct (run calls finish) as [made r]; simpl in *. rewrite IH.
      split; intros [? Hall]; (split; [done |]).
      * intros c [->|?]%elem_of_cons; [done | by apply Hall].
      * intros c Hc. apply Hall. by right.
Qed.

Lemma run_Raise calls e : ∃ e', (run calls (Raise e)).2 = Raise e'.
Proof.
  induction calls as [|call calls [e' IH]]; simpl; [by eauto |].
  destruct (raised call) as [e''|]; simpl; [by eauto |].
  destruct (run calls (Raise e)) as [made r]; simpl in *. eauto.
Qed.

(** X17.  Only the missing file is caught.  When the file is read and
    cleaning it raises, the run ends with that exception and the script
    has produced nothing, not even an error message.  When the file is
    read, the run ends normally exactly when the table loads, the object
    option of the radio is chosen and no library call of the block raises.
    With the start-event option a run on a loaded table always ends with
    an exception, having got no further than the title and the date
    slider. *)
Theorem how_a_run_ends ds ui :
  (∀ e, Loader.clean ds = Raise e → main (Some ds) ui = ([], Raise e)) ∧
  ((main (Some ds) ui).2 = Ok () ↔
     ∃ df_raw selected,
       Loader.clean ds = Ok df_raw ∧ filter_type ui = object_filter selected ∧
       ∀ call, call ∈ (script df_raw ui).1 → raised call = None) ∧
  (∀ df_raw choice,
     Loader.clean ds = Ok df_raw → filter_type ui = start_event_filter choice →
     (∃ e, (main (Some ds) ui).2 = Raise e) ∧
     (main (Some ds) ui).1
       `prefix_of` [St_title; St_slider (Sidebar.min_ts df_raw) (Sidebar.max_ts df_raw)]).
Proof.
  unfold main, Loader.load_data; simpl.
  destruct (Loader.clean ds) as [df_raw|e'] eqn:Hclean; simpl.
  - split; [done |]. split.
    + unfold outcome. rewrite run_Ok. split.
      * intros [Hfinish Hall]. unfold script in Hfinish.
        destruct (filter_type ui) as [selected|choice] eqn:Hmode; [|done].
        by exists df_raw, selected.
      * intros (df & selected & [= <-] & Hmode & Hall). split; [|done].
        unfold script. by rewrite Hmode.
    + intros df choice [= <-] Hmode. split.
      * unfold outcome, script. rewrite Hmode. cbn [fst snd]. apply run_Raise.
      * pose proof (pipeline_prefix df_raw ui) as Hprefix.
        unfold script in Hprefix. by rewrite Hmode in Hprefix.
  - split; [by intros e [= ->] |]. split; [|done].
    split; [done |]. by intros (? & ? & ? & _).
Qed.

End AppMore.
End AppMore.

(** A run on the sample file in which the diagrams cannot be drawn stops at
    the first [save_vis_ocdfg], after the discovery; a run with the
    start-event option stops after the slider. *)
Example sample_runs_that_stop :
  let stopped := App.main (H := Sample.pandas) (runtime := Sample.no_graphviz)
                   (Some Sample.dataset) Sample.ui in
  let start_event := App.main (H := Sample.pandas) (runtime := Sample.runtime)
                       (Some Sample.dataset) Sample.ui_start_event in
  (length stopped.1 = 7%nat ∧ last stopped.1 = Some App.Discover_ocdfg ∧
   stopped.2 = Raise (OtherError "ExecutableNotFound")) ∧
  (length start_event.1 = 2%nat ∧ start_event.2 = Raise TypeError).
Proof. vm_compute. done. Qed.

Lemma how_a_run_ends_witness :
  Loader.clean (H := Sample.pandas) Sample.dataset_zones = Raise ValueError ∧
  App.main (H := Sample.pandas) (runtime := Sample.runtime)
    (Some Sample.dataset_zones) Sample.ui = ([], Raise ValueError).
Proof.
  assert (Hraise : Loader.clean (H := Sample.pandas) Sample.dataset_zones
                   = Raise ValueError) by (vm_compute; reflexivity).
  split; [exact Hraise |].
  exact (proj1 (AppMore.how_a_run_ends (H := Sample.pandas) (runtime := Sample.runtime)
                  Sample.dataset_zones Sample.ui) _ Hraise).
Defined.
